(** * Revenue aggregation: backend/app/services/reservations.py

    A shallow embedding of [calculate_monthly_revenue] and
    [calculate_total_revenue] together with the parts of the Python runtime
    and of the database collaborator they rely on, followed by the
    properties of the two operations.

    Conventions of the embedding:
    - a Python computation is a value of [py A]: the messages it printed
      on the diagnostic channel, one string per call of [print] (a string
      may hold line breaks), and either a result or a raised exception;
    - exceptions are instances of Python's [Exception] (what
      [except Exception] catches); task cancellation and interpreter exit
      are outside the model;
    - Python dicts are [gmap string _];
    - the database collaborator is described by a [DatabasePool] value
      that says what each step of the live tier does, and holds the rows
      of the [reservations] table when the query runs. *)

From stdpp Require Import gmap strings list fin_maps pretty.
From Stdlib Require Import ZArith QArith Lia.

Local Open Scope string_scope.
Local Open Scope Z_scope.

(** ** Python runtime *)

(** Exceptions, with the text that [str(e)] gives. *)
Inductive exn :=
| ValueError (msg : string)
| KeyError (key : string)
| InvalidOperation (msg : string)
| OverflowError (msg : string)
| Exception (msg : string).

Definition str_exn (e : exn) : string :=
  match e with
  | ValueError msg => msg
  | KeyError key => "'" +:+ key +:+ "'"
  | InvalidOperation msg => msg
  | OverflowError msg => msg
  | Exception msg => msg
  end.

Inductive result (A : Type) :=
| Ok (a : A)
| Raised (e : exn).
Arguments Ok {A} a.
Arguments Raised {A} e.

(** Printed messages, then the outcome. *)
Definition py (A : Type) : Type := (list string * result A)%type.

Definition ret {A} (a : A) : py A := ([], Ok a).
Definition raise {A} (e : exn) : py A := ([], Raised e).
Definition print (s : string) : py unit := ([s], Ok tt).

Definition bind {A B} (m : py A) (k : A → py B) : py B :=
  match m with
  | (out, Ok a) => let '(out', r) := k a in ((out ++ out')%list, r)
  | (out, Raised e) => (out, Raised e)
  end.

(** [try: body / except Exception as e: handler e] *)
Definition try_except {A} (body : py A) (handler : exn → py A) : py A :=
  match body with
  | (out, Ok a) => (out, Ok a)
  | (out, Raised e) => let '(out', r) := handler e in ((out ++ out')%list, r)
  end.

Notation "'let!' x ':=' m 'in' k" := (bind m (fun x => k))
  (at level 10, x pattern, m at level 100, k at level 200).
Notation "'do!' m 'in' k" := (bind m (fun _ => k))
  (at level 10, m at level 100, k at level 200).

(** *** datetime *)

Definition MINYEAR : Z := 1.
Definition MAXYEAR : Z := 9999.

(** A naive datetime; [tod] is the time of day in microseconds. *)
Record datetime := mk_datetime {
  dt_year : Z;
  dt_month : Z;
  dt_day : Z;
  dt_tod : Z
}.

Definition is_leap (year : Z) : bool :=
  (year mod 4 =? 0) && (negb (year mod 100 =? 0) || (year mod 400 =? 0)).

Definition days_in_month (year month : Z) : Z :=
  if month =? 2 then (if is_leap year then 29 else 28)
  else if (month =? 4) || (month =? 6) || (month =? 9) || (month =? 11) then 30
  else 31.

(** The bounds of a C [int] and of a C [long] (64 bits). *)
Definition INT_MIN : Z := -2147483648.
Definition INT_MAX : Z := 2147483647.
Definition LONG_MIN : Z := -9223372036854775808.
Definition LONG_MAX : Z := 9223372036854775807.

(** The constructor of [datetime] first converts each argument to a C
    [int]: a Python int that does not fit raises [OverflowError] (with
    the messages of CPython's implementation). *)
Definition as_int (n : Z) : py Z :=
  if (n <? LONG_MIN) || (LONG_MAX <? n) then
    raise (OverflowError "Python int too large to convert to C long")
  else if INT_MAX <? n then
    raise (OverflowError "signed integer is greater than maximum")
  else if n <? INT_MIN then
    raise (OverflowError "signed integer is less than minimum")
  else ret n.

(** The date fields are then checked in this order and a [ValueError]
    is raised for the first one out of range. *)
Definition check_date_fields (year month day : Z) : py datetime :=
  if negb ((MINYEAR <=? year) && (year <=? MAXYEAR)) then
    raise (ValueError ("year " +:+ pretty year +:+ " is out of range"))
  else if negb ((1 <=? month) && (month <=? 12)) then
    raise (ValueError "month must be in 1..12")
  else if negb ((1 <=? day) && (day <=? days_in_month year month)) then
    raise (ValueError "day is out of range for month")
  else ret (mk_datetime year month day 0).

(** [datetime(year, month, day)] *)
Definition datetime_new (year month day : Z) : py datetime :=
  let! year := as_int year in
  let! month := as_int month in
  let! day := as_int day in
  check_date_fields year month day.

(** Comparison of naive datetimes is lexicographic. *)
Definition dt_lt (a b : datetime) : bool :=
  (dt_year a <? dt_year b) ||
  ((dt_year a =? dt_year b) &&
   ((dt_month a <? dt_month b) ||
    ((dt_month a =? dt_month b) &&
     ((dt_day a <? dt_day b) ||
      ((dt_day a =? dt_day b) && (dt_tod a <? dt_tod b)))))).

Definition dt_le (a b : datetime) : bool := negb (dt_lt b a).

(** *** Decimal *)

(** A finite decimal [coef * 10^(-scale)]; the scale is kept, as Python
    keeps the exponent: [Decimal('0.000')] and [Decimal('0')] differ in
    representation. *)
Record Decimal := mk_Decimal {
  coef : Z;
  scale : nat
}.

Definition dec_add (a b : Decimal) : Decimal :=
  let s := Nat.max (scale a) (scale b) in
  mk_Decimal (coef a * 10 ^ Z.of_nat (s - scale a) +
              coef b * 10 ^ Z.of_nat (s - scale b)) s.

Definition dec_nonneg (d : Decimal) : Prop := 0 <= coef d.

Definition dec_to_Q (d : Decimal) : Q :=
  Qmake (coef d) (Z.to_pos (10 ^ Z.of_nat (scale d))).

Definition zeros (n : nat) : string := String.concat "" (replicate n "0").

(** [str(d)] for a finite decimal with a non-positive exponent, following
    [Decimal.__str__]: plain notation while the number has fewer than six
    leading zeros after the point, scientific notation otherwise. *)
Definition str_Decimal (d : Decimal) : string :=
  let sign := if coef d <? 0 then "-" else "" in
  let digits := pretty (Z.abs (coef d)) in
  let len := Z.of_nat (String.length digits) in
  let leftdigits := len - Z.of_nat (scale d) in
  let dotplace := if -6 <? leftdigits then leftdigits else 1 in
  let intpart :=
    if dotplace <=? 0 then "0"
    else if len <=? dotplace then digits +:+ zeros (Z.to_nat (dotplace - len))
    else String.substring 0 (Z.to_nat dotplace) digits in
  let fracpart :=
    if dotplace <=? 0 then "." +:+ zeros (Z.to_nat (- dotplace)) +:+ digits
    else if len <=? dotplace then ""
    else "." +:+ String.substring (Z.to_nat dotplace)
                   (String.length digits - Z.to_nat dotplace) digits in
  let exp :=
    if leftdigits =? dotplace then ""
    else "E" +:+ (if 0 <=? leftdigits - dotplace then "+" else "")
             +:+ pretty (leftdigits - dotplace) in
  sign +:+ intpart +:+ fracpart +:+ exp.

(** *** Values held by dicts and returned by the operations *)

Inductive value :=
| VNone
| VStr (s : string)
| VInt (n : Z)
| VDecimal (d : Decimal).

(** [d.get(k, dflt)] and [d[k]] *)
Definition dict_get {A} (d : gmap string A) (k : string) (dflt : A) : A :=
  default dflt (d !! k).

Definition dict_getitem {A} (d : gmap string A) (k : string) : py A :=
  match d !! k with
  | Some v => ret v
  | None => raise (KeyError k)
  end.

(** [format(n, '02d')]: zero-padded to two characters, sign included. *)
Definition fmt_02d (n : Z) : string :=
  let s := pretty n in
  if (String.length s <? 2)%nat then "0" +:+ s else s.

(** ** The database collaborator *)

Module Reservation.
(** Modelled from the spec: a row of the [reservations] table of the
    external data store, with the columns the two queries name. *)
Record t := mk {
  id : string;
  property_id : string;
  tenant_id : string;
  total_amount : Decimal;
  check_in_date : datetime
}.
End Reservation.

(** Modelled from the spec: the session of the Query Execution
    Collaborator. It either raises when the query is executed or the row
    is fetched, or runs the query on the table. *)
Inductive session :=
| Broken (e : exn)
| Live (reservations : list Reservation.t).

(** Modelled from the spec: the Query Execution Collaborator, the class
    [DatabasePool] of [app.core.database_pool], whose code is not among
    these sources. The spec gives it an initialization step, a readiness
    flag and a scoped acquisition of a session, and lets each step fail.
    A [DatabasePool] records what each step does during one call:
    [initialize] stands for the import, the constructor and
    [await db_pool.initialize()], [session_factory] for the truth value
    of the attribute, [get_session] for entering
    [async with db_pool.get_session()]. *)
Record DatabasePool := {
  initialize : result unit;
  session_factory : bool;
  get_session : result session
}.

(** A step of the collaborator, run by the caller. *)
Definition await {A} (r : result A) : py A := ([], r).

(** *** The two aggregation queries *)

Inductive sqlval :=
| SqlNull
| SqlInt (n : Z)
| SqlNumeric (d : Decimal).

(** [SUM(total_amount)]: NULL over no rows. *)
Fixpoint sql_sum (xs : list Decimal) : sqlval :=
  match xs with
  | [] => SqlNull
  | x :: xs' =>
      SqlNumeric (match sql_sum xs' with
                  | SqlNumeric s => dec_add x s
                  | _ => x
                  end)
  end.

(** [COALESCE(v, 0)] *)
Definition coalesce0 (v : sqlval) : sqlval :=
  match v with
  | SqlNull => SqlInt 0
  | _ => v
  end.

Record monthly_row := { total : sqlval }.

Record total_row := {
  row_property_id : string;
  total_revenue : sqlval;
  reservation_count : Z
}.

(** [WHERE property_id = :property_id AND tenant_id = :tenant_id
     AND check_in_date >= :start_date AND check_in_date < :end_date] *)
Definition monthly_where (property_id tenant_id : string)
    (start_date end_date : datetime) (r : Reservation.t) : bool :=
  bool_decide (Reservation.property_id r = property_id) &&
  bool_decide (Reservation.tenant_id r = tenant_id) &&
  dt_le start_date (Reservation.check_in_date r) &&
  dt_lt (Reservation.check_in_date r) end_date.

(** [WHERE property_id = :property_id AND tenant_id = :tenant_id] *)
Definition total_where (property_id tenant_id : string)
    (r : Reservation.t) : bool :=
  bool_decide (Reservation.property_id r = property_id) &&
  bool_decide (Reservation.tenant_id r = tenant_id).

Definition monthly_rows (property_id tenant_id : string)
    (start_date end_date : datetime) (rs : list Reservation.t) :
    list Reservation.t :=
  List.filter (monthly_where property_id tenant_id start_date end_date) rs.

Definition total_rows (property_id tenant_id : string)
    (rs : list Reservation.t) : list Reservation.t :=
  List.filter (total_where property_id tenant_id) rs.

(** Modelled from the spec: [session.execute(query, params)] then
    [result.fetchone()] of the collaborator's session, on the query of
    lines 27-34: an aggregate without GROUP BY always has one row. *)
Definition execute_monthly (s : session) (property_id tenant_id : string)
    (start_date end_date : datetime) : py (option monthly_row) :=
  match s with
  | Broken e => raise e
  | Live rs =>
      let rows := monthly_rows property_id tenant_id start_date end_date rs in
      ret (Some {| total :=
             coalesce0 (sql_sum (map Reservation.total_amount rows)) |})
  end.

(** Modelled from the spec: the same on the query of lines 70-78, where
    [GROUP BY property_id] gives one row for the property when it has
    reservations and none otherwise. *)
Definition execute_total (s : session) (property_id tenant_id : string) :
    py (option total_row) :=
  match s with
  | Broken e => raise e
  | Live rs =>
      let rows := total_rows property_id tenant_id rs in
      ret (match rows with
           | [] => None
           | _ :: _ =>
               Some {| row_property_id := property_id;
                       total_revenue :=
                         sql_sum (map Reservation.total_amount rows);
                       reservation_count := Z.of_nat (length rows) |}
           end)
  end.

(** The decimal the live tier makes of [COALESCE(SUM(..), 0)]. *)
Definition sum_decimals (xs : list Decimal) : Decimal :=
  match sql_sum xs with
  | SqlNumeric s => s
  | _ => mk_Decimal 0 0
  end.

(** [Decimal(str(x))] for a column value: a finite decimal survives
    [str] and is read back as it was, an integer gets exponent 0, and
    ['None'] is not a number. *)
Definition Decimal_of_str (x : sqlval) : py Decimal :=
  match x with
  | SqlNumeric d => ret d
  | SqlInt n => ret (mk_Decimal n 0)
  | SqlNull => raise (InvalidOperation "[<class 'decimal.ConversionSyntax'>]")
  end.

(** ** backend/app/services/reservations.py *)

(** The year and month of the day after the last day of [(year, month)]. *)
Definition next_year (year month : Z) : Z :=
  if month <? 12 then year else year + 1.
Definition next_month (month : Z) : Z :=
  if month <? 12 then month + 1 else 1.

(** Lines 12-16: the bounds of the month, computed before the [try]. *)
Definition month_bounds (year month : Z) : py (datetime * datetime) :=
  let! start_date := datetime_new year month 1 in
  let! end_date :=
    (if month <? 12 then datetime_new year (month + 1) 1
     else datetime_new (year + 1) 1 1) in
  ret (start_date, end_date).

Definition monthly_mock : gmap string (gmap string value) :=
  {[ "tenant-a" :=
       {[ "prop-001" := VDecimal (mk_Decimal 333333 3);
          "prop-002" := VDecimal (mk_Decimal 1243875 3);
          "prop-003" := VDecimal (mk_Decimal 3050250 3) ]};
     "tenant-b" :=
       {[ "prop-001" := VDecimal (mk_Decimal 0 3);
          "prop-004" := VDecimal (mk_Decimal 444125 3);
          "prop-005" := VDecimal (mk_Decimal 1085333 3) ]} ]}.

(** Lines 19-42: the body of the [try]. When [session_factory] is falsy
    the [if] has no other branch: control leaves the [try] without a
    [return] and the function ends, returning [None]. *)
Definition monthly_try (property_id tenant_id : string)
    (start_date end_date : datetime) (db_pool : DatabasePool) : py value :=
  do! await (initialize db_pool) in
  if session_factory db_pool then
    let! session := await (get_session db_pool) in
    let! row :=
      execute_monthly session property_id tenant_id start_date end_date in
    match row with
    | Some row => let! d := Decimal_of_str (total row) in ret (VDecimal d)
    | None => ret (VDecimal (mk_Decimal 0 0))
    end
  else ret VNone.

(** Line 44: the diagnostic. *)
Definition monthly_diagnostic (property_id tenant_id : string)
    (month year : Z) (e : exn) : string :=
  "[calculate_monthly_revenue] DB error for " +:+ property_id +:+ "/"
  +:+ tenant_id +:+ " " +:+ pretty year +:+ "-" +:+ fmt_02d month +:+ ": "
  +:+ str_exn e.

(** Lines 43-51: the handler. *)
Definition monthly_except (property_id tenant_id : string)
    (month year : Z) (e : exn) : py value :=
  do! print (monthly_diagnostic property_id tenant_id month year e) in
  ret (dict_get (dict_get monthly_mock tenant_id ∅) property_id
         (VDecimal (mk_Decimal 0 0))).

(** [db_pool] stands for the [DatabasePool] the function imports; the
    [db_session] parameter of the source is not used by it. *)
Definition calculate_monthly_revenue (property_id tenant_id : string)
    (month year : Z) (db_pool : DatabasePool) : py value :=
  let! bounds := month_bounds year month in
  let '(start_date, end_date) := bounds in
  try_except
    (monthly_try property_id tenant_id start_date end_date db_pool)
    (monthly_except property_id tenant_id month year).

Definition mock_data : gmap string (gmap string (gmap string value)) :=
  {[ "tenant-a" :=
       {[ "prop-001" := {[ "total" := VStr "2250.000"; "count" := VInt 4 ]};
          "prop-002" := {[ "total" := VStr "4975.500"; "count" := VInt 4 ]};
          "prop-003" := {[ "total" := VStr "6100.500"; "count" := VInt 2 ]} ]};
     "tenant-b" :=
       {[ "prop-001" := {[ "total" := VStr "0.000"; "count" := VInt 0 ]};
          "prop-004" := {[ "total" := VStr "1776.500"; "count" := VInt 4 ]};
          "prop-005" := {[ "total" := VStr "3256.000"; "count" := VInt 3 ]} ]} ]}.

(** The Revenue Result dict built at lines 88-94, 97-103 and 129-135. *)
Definition revenue_result (property_id tenant_id : string)
    (total count : value) : gmap string value :=
  {[ "property_id" := VStr property_id;
     "tenant_id" := VStr tenant_id;
     "total" := total;
     "currency" := VStr "USD";
     "count" := count ]}.

(** Lines 58-105: the body of the [try]. *)
Definition total_try (property_id tenant_id : string)
    (db_pool : DatabasePool) : py (gmap string value) :=
  do! await (initialize db_pool) in
  if session_factory db_pool then
    let! session := await (get_session db_pool) in
    let! row := execute_total session property_id tenant_id in
    match row with
    | Some row =>
        let! total_revenue := Decimal_of_str (total_revenue row) in
        ret (revenue_result property_id tenant_id
               (VStr (str_Decimal total_revenue))
               (VInt (reservation_count row)))
    | None =>
        ret (revenue_result property_id tenant_id (VStr "0.00") (VInt 0))
    end
  else raise (Exception "Database pool not available").

(** Line 108: the diagnostic. *)
Definition total_diagnostic (property_id tenant_id : string) (e : exn) :
    string :=
  "Database error for " +:+ property_id +:+ " (tenant: " +:+ tenant_id
  +:+ "): " +:+ str_exn e.

(** Lines 107-135: the handler. *)
Definition total_except (property_id tenant_id : string) (e : exn) :
    py (gmap string value) :=
  do! print (total_diagnostic property_id tenant_id e) in
  let mock_property_data :=
    dict_get (dict_get mock_data tenant_id ∅) property_id
      {[ "total" := VStr "0.000"; "count" := VInt 0 ]} in
  let! total := dict_getitem mock_property_data "total" in
  let! count := dict_getitem mock_property_data "count" in
  ret (revenue_result property_id tenant_id total count).

Definition calculate_total_revenue (property_id tenant_id : string)
    (db_pool : DatabasePool) : py (gmap string value) :=
  try_except (total_try property_id tenant_id db_pool)
             (total_except property_id tenant_id).

(** ** Notions used in the statements *)

(** What the live tier comes to: the first step that raises, a pool
    that is initialized but has no session factory, or the table the
    query is run on. *)
Inductive live_outcome :=
| LiveRaises (e : exn)
| LiveNoFactory
| LiveAnswers (reservations : list Reservation.t).

Definition live_tier (db_pool : DatabasePool) : live_outcome :=
  match initialize db_pool with
  | Raised e => LiveRaises e
  | Ok _ =>
      if session_factory db_pool then
        match get_session db_pool with
        | Raised e => LiveRaises e
        | Ok (Broken e) => LiveRaises e
        | Ok (Live rs) => LiveAnswers rs
        end
      else LiveNoFactory
  end.

(** The live tier gives no answer: it raises or has no session factory. *)
Definition live_unavailable (db_pool : DatabasePool) : bool :=
  match live_tier db_pool with
  | LiveAnswers _ => false
  | _ => true
  end.

(** Pools for each behaviour. *)
Definition Ready (reservations : list Reservation.t) : DatabasePool :=
  {| initialize := Ok tt; session_factory := true;
     get_session := Ok (Live reservations) |}.
Definition InitFails (e : exn) : DatabasePool :=
  {| initialize := Raised e; session_factory := false;
     get_session := Raised e |}.
Definition NoSessionFactory : DatabasePool :=
  {| initialize := Ok tt; session_factory := false;
     get_session := Raised (Exception "session factory is None") |}.
Definition SessionFails (e : exn) : DatabasePool :=
  {| initialize := Ok tt; session_factory := true; get_session := Raised e |}.
Definition ExecuteFails (e : exn) : DatabasePool :=
  {| initialize := Ok tt; session_factory := true;
     get_session := Ok (Broken e) |}.

(** The integer fits a C [int]. *)
Definition fits_int (n : Z) : Prop := INT_MIN <= n <= INT_MAX.

(** Both bounds of the month are dates [datetime] can represent. *)
Definition bounds_in_range (year month : Z) : Prop :=
  1 <= month <= 12 ∧ MINYEAR <= year <= MAXYEAR ∧
  (month = 12 → year + 1 <= MAXYEAR).

(** The two bounds of the month as dates. *)
Definition first_day (year month : Z) : datetime :=
  mk_datetime year month 1 0.
Definition first_day_of_next (year month : Z) : datetime :=
  mk_datetime (next_year year month) (next_month month) 1 0.

(** The pair looked up in a fallback table: tenant first, then property. *)
Definition fallback_entry {A} (table : gmap string (gmap string A))
    (tenant_id property_id : string) : option A :=
  table !! tenant_id ≫= (.!! property_id).

(** A check-in date as the store holds it: a month in 1-12, a day from
    1 on and a time of day from 0 on. *)
Definition valid_check_in (d : datetime) : Prop :=
  1 <= dt_month d <= 12 ∧ 1 <= dt_day d ∧ 0 <= dt_tod d.

(** The reservation is of the property and tenant and checks in during
    the month of the year. *)
Definition in_month (property_id tenant_id : string) (year month : Z)
    (r : Reservation.t) : bool :=
  bool_decide (Reservation.property_id r = property_id) &&
  bool_decide (Reservation.tenant_id r = tenant_id) &&
  (dt_year (Reservation.check_in_date r) =? year) &&
  (dt_month (Reservation.check_in_date r) =? month).

(** The exact sum of the numbers a list of decimals denotes, and the
    largest scale among them. *)
Definition sum_Q (xs : list Decimal) : Q :=
  fold_right (λ d q, (dec_to_Q d + q)%Q) 0%Q xs.
Definition max_scale (xs : list Decimal) : nat :=
  fold_right (λ d n, Nat.max (scale d) n) 0%nat xs.

(** * Properties *)

(** ** Rendering of decimals *)

Example str_Decimal_ex1 : str_Decimal (mk_Decimal 2250000 3) = "2250.000".
Proof. reflexivity. Qed.
Example str_Decimal_ex2 : str_Decimal (mk_Decimal 0 3) = "0.000".
Proof. reflexivity. Qed.
Example str_Decimal_ex3 : str_Decimal (mk_Decimal 0 0) = "0".
Proof. reflexivity. Qed.
Example str_Decimal_ex4 : str_Decimal (mk_Decimal (-5) 1) = "-0.5".
Proof. reflexivity. Qed.
Example str_Decimal_ex5 : str_Decimal (mk_Decimal 1 7) = "1E-7".
Proof. reflexivity. Qed.
Example str_Decimal_ex6 : str_Decimal (mk_Decimal 123 8) = "0.00000123".
Proof. reflexivity. Qed.
Example str_Decimal_ex7 : str_Decimal (mk_Decimal 123 9) = "1.23E-7".
Proof. reflexivity. Qed.

(** ** The monad *)

Lemma bind_ret_l {A B} (a : A) (k : A → py B) : bind (ret a) k = k a.
Proof. unfold bind, ret. destruct (k a) as [out r]. reflexivity. Qed.

Lemma bind_raise {A B} (e : exn) (k : A → py B) : bind (raise e) k = raise e.
Proof. reflexivity. Qed.

Lemma try_except_ok {A} out (a : A) h : try_except (out, Ok a) h = (out, Ok a).
Proof. reflexivity. Qed.

Lemma try_except_raise {A} (e : exn) (h : exn → py A) :
  try_except (raise e) h = h e.
Proof. unfold try_except, raise. destruct (h e) as [out r]. reflexivity. Qed.

(** ** Dates *)

Lemma days_in_month_pos year month : 1 <= days_in_month year month.
Proof.
  unfold days_in_month.
  repeat match goal with |- context [if ?b then _ else _] => destruct b end; lia.
Qed.

Lemma as_int_fits n : fits_int n → as_int n = ret n.
Proof.
  unfold fits_int, as_int, INT_MIN, INT_MAX, LONG_MIN, LONG_MAX.
  intros [Hlo Hhi].
  rewrite (proj2 (Z.ltb_ge _ _)) by lia.
  rewrite (proj2 (Z.ltb_ge _ _)) by lia.
  rewrite (proj2 (Z.ltb_ge _ _)) by lia.
  rewrite (proj2 (Z.ltb_ge _ _)) by lia. reflexivity.
Qed.

Lemma as_int_overflow n :
  ¬ fits_int n → ∃ msg, as_int n = raise (OverflowError msg).
Proof.
  unfold fits_int, as_int. intros Hout.
  destruct ((n <? LONG_MIN) || (LONG_MAX <? n)); [eauto |].
  destruct (INT_MAX <? n) eqn:Ehi; [eauto |].
  destruct (n <? INT_MIN) eqn:Elo; [eauto |].
  apply Z.ltb_ge in Ehi, Elo. lia.
Qed.

Lemma fits_int_dec n : fits_int n ∨ ¬ fits_int n.
Proof. unfold fits_int. lia. Qed.

(** With arguments that fit, the constructor is the check of the
    fields. *)
Lemma datetime_new_fits year month day :
  fits_int year → fits_int month → fits_int day →
  datetime_new year month day = check_date_fields year month day.
Proof.
  intros Hy Hm Hd. unfold datetime_new.
  rewrite (as_int_fits _ Hy), bind_ret_l.
  rewrite (as_int_fits _ Hm), bind_ret_l.
  rewrite (as_int_fits _ Hd), bind_ret_l. reflexivity.
Qed.

(** An argument that does not fit makes it raise [OverflowError],
    whatever the other arguments are. *)
Lemma datetime_new_overflow year month day :
  ¬ fits_int year ∨ ¬ fits_int month →
  ∃ msg, datetime_new year month day = raise (OverflowError msg).
Proof.
  intros Hout. unfold datetime_new.
  destruct (fits_int_dec year) as [Hy | Hy].
  - destruct Hout as [Hout | Hout]; [contradiction |].
    rewrite (as_int_fits _ Hy), bind_ret_l.
    destruct (as_int_overflow _ Hout) as (msg & ->). eauto.
  - destruct (as_int_overflow _ Hy) as (msg & ->). eauto.
Qed.

Lemma fits_int_small n : -10000 <= n <= 10000 → fits_int n.
Proof. unfold fits_int, INT_MIN, INT_MAX. lia. Qed.

(** The first day of a month in range exists. *)
Lemma datetime_new_first year month :
  MINYEAR <= year <= MAXYEAR → 1 <= month <= 12 →
  datetime_new year month 1 = ret (mk_datetime year month 1 0).
Proof.
  intros [Hy1 Hy2] [Hm1 Hm2].
  rewrite datetime_new_fits
    by (apply fits_int_small; unfold MINYEAR, MAXYEAR in *; lia).
  unfold check_date_fields.
  pose proof (days_in_month_pos year month) as Hd.
  rewrite (proj2 (Z.leb_le _ _) Hy1), (proj2 (Z.leb_le _ _) Hy2).
  rewrite (proj2 (Z.leb_le _ _) Hm1), (proj2 (Z.leb_le _ _) Hm2).
  rewrite (proj2 (Z.leb_le _ _) Hd). reflexivity.
Qed.

Lemma datetime_new_bad_year year month :
  fits_int year → fits_int month →
  ¬ (MINYEAR <= year <= MAXYEAR) →
  datetime_new year month 1 =
    raise (ValueError ("year " +:+ pretty year +:+ " is out of range")).
Proof.
  intros Hfy Hfm Hy.
  rewrite datetime_new_fits by (auto; apply fits_int_small; lia).
  unfold check_date_fields.
  destruct (MINYEAR <=? year) eqn:E1; destruct (year <=? MAXYEAR) eqn:E2;
    try reflexivity.
  apply Z.leb_le in E1, E2. lia.
Qed.

Lemma datetime_new_bad_month year month :
  fits_int month →
  MINYEAR <= year <= MAXYEAR → ¬ (1 <= month <= 12) →
  datetime_new year month 1 = raise (ValueError "month must be in 1..12").
Proof.
  intros Hfm [Hy1 Hy2] Hm.
  rewrite datetime_new_fits
    by (auto; apply fits_int_small; unfold MINYEAR, MAXYEAR in *; lia).
  unfold check_date_fields.
  rewrite (proj2 (Z.leb_le _ _) Hy1), (proj2 (Z.leb_le _ _) Hy2). simpl.
  destruct (1 <=? month) eqn:E1; destruct (month <=? 12) eqn:E2;
    try reflexivity.
  apply Z.leb_le in E1, E2. lia.
Qed.

Lemma month_bounds_in_range year month :
  1 <= month <= 12 → MINYEAR <= year → next_year year month <= MAXYEAR →
  month_bounds year month =
    ret (mk_datetime year month 1 0,
         mk_datetime (next_year year month) (next_month month) 1 0).
Proof.
  intros Hm Hy1 Hy2. unfold month_bounds, next_year, next_month in *.
  destruct (month <? 12) eqn:E.
  - apply Z.ltb_lt in E.
    rewrite datetime_new_first by lia. rewrite bind_ret_l.
    rewrite datetime_new_first by lia. rewrite bind_ret_l. reflexivity.
  - apply Z.ltb_ge in E.
    rewrite datetime_new_first by (unfold MINYEAR, MAXYEAR in *; lia).
    rewrite bind_ret_l.
    rewrite datetime_new_first by (unfold MINYEAR, MAXYEAR in *; lia).
    rewrite bind_ret_l. reflexivity.
Qed.

Lemma bounds_in_range_next year month :
  bounds_in_range year month → next_year year month <= MAXYEAR.
Proof.
  intros (Hm & Hy & H12). unfold next_year.
  destruct (month <? 12) eqn:E; [lia |].
  apply Z.ltb_ge in E. apply H12. lia.
Qed.

(** Out of range, the bounds are not built: the date construction
    raises [ValueError] when the year and the month fit a C [int] and
    [OverflowError] when one of them does not. *)
Lemma month_bounds_out_of_range year month :
  ¬ bounds_in_range year month →
  ∃ e,
    month_bounds year month = raise e
    ∧ (fits_int year → fits_int month → ∃ msg, e = ValueError msg)
    ∧ (¬ fits_int year ∨ ¬ fits_int month → ∃ msg, e = OverflowError msg).
Proof.
  intros Hout. unfold month_bounds.
  destruct (fits_int_dec year) as [Hfy | Hfy];
    [destruct (fits_int_dec month) as [Hfm | Hfm] |].
  - assert (Hval : ∃ msg,
              (let! start_date := datetime_new year month 1 in
               let! end_date :=
                 (if month <? 12 then datetime_new year (month + 1) 1
                  else datetime_new (year + 1) 1 1) in
               ret (start_date, end_date)) = raise (ValueError msg)).
    { destruct (Z_le_dec MINYEAR year) as [Hy1 |];
        [destruct (Z_le_dec year MAXYEAR) as [Hy2 |] |].
      - destruct (Z_le_dec 1 month) as [Hm1 |];
          [destruct (Z_le_dec month 12) as [Hm2 |] |].
        + rewrite datetime_new_first by lia. rewrite bind_ret_l.
          assert (Hdec : month = 12 ∧ MAXYEAR < year + 1).
          { unfold bounds_in_range in Hout. lia. }
          destruct Hdec as [-> Hmax]. simpl.
          rewrite datetime_new_bad_year;
            [eexists; reflexivity | | | lia];
            apply fits_int_small; unfold MINYEAR, MAXYEAR in *; lia.
        + rewrite datetime_new_bad_month by (auto; lia).
          eexists. reflexivity.
        + rewrite datetime_new_bad_month by (auto; lia).
          eexists. reflexivity.
      - rewrite datetime_new_bad_year by (auto; lia). eexists. reflexivity.
      - rewrite datetime_new_bad_year by (auto; lia). eexists. reflexivity. }
    destruct Hval as (msg & ->). eexists. split; [reflexivity |].
    split; [eauto | intros [H | H]; contradiction].
  - destruct (datetime_new_overflow year month 1 (or_intror Hfm))
      as (msg & ->).
    eexists. split; [reflexivity |].
    split; [intros; contradiction | eauto].
  - destruct (datetime_new_overflow year month 1 (or_introl Hfy))
      as (msg & ->).
    eexists. split; [reflexivity |].
    split; [intros; contradiction | eauto].
Qed.

Lemma bounds_in_range_dec year month :
  bounds_in_range year month ∨ ¬ bounds_in_range year month.
Proof. unfold bounds_in_range, MINYEAR, MAXYEAR. lia. Qed.

Lemma dt_lt_irrefl d : dt_lt d d = false.
Proof.
  unfold dt_lt. rewrite !Z.ltb_irrefl, !Z.eqb_refl. reflexivity.
Qed.

Lemma dt_le_refl d : dt_le d d = true.
Proof. unfold dt_le. rewrite dt_lt_irrefl. reflexivity. Qed.

Lemma first_day_lt_next year month :
  1 <= month <= 12 →
  dt_lt (mk_datetime year month 1 0)
        (mk_datetime (next_year year month) (next_month month) 1 0) = true.
Proof.
  intros Hm. unfold dt_lt, next_year, next_month. simpl.
  destruct (month <? 12) eqn:E.
  - apply Z.ltb_lt in E. rewrite Z.eqb_refl.
    rewrite (proj2 (Z.ltb_lt month (month + 1))) by lia.
    rewrite orb_true_r. reflexivity.
  - rewrite (proj2 (Z.ltb_lt year (year + 1))) by lia. reflexivity.
Qed.

(** ** The fallback tables *)

(** Case analysis on a key looked up in a dict literal. *)
Ltac dict_cases :=
  unfold dict_get;
  repeat (rewrite lookup_insert || rewrite lookup_singleton
          || rewrite lookup_empty);
  repeat case_decide; subst; simpl.

(** Every entry of [monthly_mock], and its default, is a non-negative
    decimal. *)
Lemma monthly_mock_decimal tenant_id property_id :
  ∃ d, dict_get (dict_get monthly_mock tenant_id ∅) property_id
         (VDecimal (mk_Decimal 0 0)) = VDecimal d ∧ dec_nonneg d.
Proof.
  unfold monthly_mock, dec_nonneg.
  dict_cases; dict_cases; eexists; (split; [reflexivity | simpl; lia]).
Qed.

(** Every entry of [mock_data], and its default, has a string under
    ['total'] and a non-negative integer under ['count']. *)
Lemma mock_data_entry tenant_id property_id :
  ∃ s n,
    dict_get (dict_get mock_data tenant_id ∅) property_id
      {[ "total" := VStr "0.000"; "count" := VInt 0 ]}
    = {[ "total" := VStr s; "count" := VInt n ]} ∧ 0 <= n.
Proof.
  unfold mock_data.
  dict_cases; dict_cases; do 2 eexists; (split; [reflexivity | lia]).
Qed.

(** The handler of [calculate_total_revenue] never raises: it prints one
    message and builds a result from the table. *)
Lemma total_except_ok property_id tenant_id e :
  ∃ s n,
    total_except property_id tenant_id e =
      ([total_diagnostic property_id tenant_id e],
       Ok (revenue_result property_id tenant_id (VStr s) (VInt n)))
    ∧ 0 <= n
    ∧ dict_get (dict_get mock_data tenant_id ∅) property_id
        {[ "total" := VStr "0.000"; "count" := VInt 0 ]}
      = {[ "total" := VStr s; "count" := VInt n ]}.
Proof.
  destruct (mock_data_entry tenant_id property_id) as (s & n & Hentry & Hn).
  exists s, n. split; [| split; [exact Hn | exact Hentry]].
  unfold total_except. rewrite Hentry. reflexivity.
Qed.

Lemma monthly_except_ok property_id tenant_id month year e :
  ∃ d,
    monthly_except property_id tenant_id month year e =
      ([monthly_diagnostic property_id tenant_id month year e],
       Ok (VDecimal d))
    ∧ dec_nonneg d
    ∧ dict_get (dict_get monthly_mock tenant_id ∅) property_id
        (VDecimal (mk_Decimal 0 0)) = VDecimal d.
Proof.
  destruct (monthly_mock_decimal tenant_id property_id) as (d & Hd & Hnn).
  exists d. split; [| split; [exact Hnn | exact Hd]].
  unfold monthly_except. rewrite Hd. reflexivity.
Qed.

(** ** Decimal sums *)

Lemma sql_sum_cons x xs :
  sql_sum (x :: xs) =
    SqlNumeric (match xs with [] => x | _ => dec_add x (sum_decimals xs) end).
Proof.
  unfold sum_decimals. destruct xs as [| y ys]; reflexivity.
Qed.

Lemma Decimal_of_str_sum xs :
  Decimal_of_str (coalesce0 (sql_sum xs)) = ret (sum_decimals xs).
Proof. destruct xs; reflexivity. Qed.

Lemma Decimal_of_str_sum_cons x xs :
  Decimal_of_str (sql_sum (x :: xs)) = ret (sum_decimals (x :: xs)).
Proof. reflexivity. Qed.

Lemma pow10_pos (n : nat) : 0 < 10 ^ Z.of_nat n.
Proof. apply Z.pow_pos_nonneg; lia. Qed.

Lemma dec_add_nonneg a b : dec_nonneg a → dec_nonneg b → dec_nonneg (dec_add a b).
Proof.
  unfold dec_nonneg, dec_add. simpl. intros Ha Hb.
  pose proof (pow10_pos (Nat.max (scale a) (scale b) - scale a)).
  pose proof (pow10_pos (Nat.max (scale a) (scale b) - scale b)).
  nia.
Qed.

Lemma sum_decimals_nonneg xs : Forall dec_nonneg xs → dec_nonneg (sum_decimals xs).
Proof.
  induction 1 as [| x xs Hx Hxs IH].
  - unfold sum_decimals, dec_nonneg. simpl. lia.
  - unfold sum_decimals. rewrite sql_sum_cons.
    destruct xs; [exact Hx | apply dec_add_nonneg; assumption].
Qed.

(** [dec_add] adds the numbers the two decimals denote. *)
Lemma dec_add_to_Q a b :
  (dec_to_Q (dec_add a b) == dec_to_Q a + dec_to_Q b)%Q.
Proof.
  unfold dec_to_Q, dec_add, Qeq, Qplus. simpl Qnum. simpl Qden.
  set (s := Nat.max (scale a) (scale b)).
  rewrite Pos2Z.inj_mul.
  rewrite !Z2Pos.id by apply pow10_pos.
  assert (Ha : 10 ^ Z.of_nat s =
               10 ^ Z.of_nat (s - scale a) * 10 ^ Z.of_nat (scale a)).
  { rewrite <- Z.pow_add_r by lia. f_equal. lia. }
  assert (Hb : 10 ^ Z.of_nat s =
               10 ^ Z.of_nat (s - scale b) * 10 ^ Z.of_nat (scale b)).
  { rewrite <- Z.pow_add_r by lia. f_equal. lia. }
  set (X := 10 ^ Z.of_nat (s - scale a)) in *.
  set (Y := 10 ^ Z.of_nat (s - scale b)) in *.
  set (A := 10 ^ Z.of_nat (scale a)) in *.
  set (B := 10 ^ Z.of_nat (scale b)) in *.
  transitivity (coef a * (X * A) * B + coef b * (Y * B) * A); [ring |].
  rewrite <- Ha, <- Hb. ring.
Qed.

Lemma sum_decimals_cons_to_Q x xs :
  (dec_to_Q (sum_decimals (x :: xs)) == dec_to_Q x + dec_to_Q (sum_decimals xs))%Q.
Proof.
  unfold sum_decimals at 1. rewrite sql_sum_cons. destruct xs as [| y ys].
  - unfold sum_decimals. simpl sql_sum. unfold dec_to_Q at 3. simpl.
    unfold Qeq, Qplus. simpl. lia.
  - apply dec_add_to_Q.
Qed.

(** ** The live tier *)

Lemma await_Ok {A} (a : A) : await (Ok a) = ret a.
Proof. reflexivity. Qed.

Lemma await_Raised {A} (e : exn) : await (@Raised A e) = raise e.
Proof. reflexivity. Qed.

(** The [try] body of the monthly calculator depends on the collaborator
    through [live_tier] only. *)
Lemma monthly_try_live_tier property_id tenant_id start_date end_date db_pool :
  monthly_try property_id tenant_id start_date end_date db_pool =
    match live_tier db_pool with
    | LiveRaises e => raise e
    | LiveNoFactory => ret VNone
    | LiveAnswers rs =>
        ret (VDecimal (sum_decimals (map Reservation.total_amount
               (monthly_rows property_id tenant_id start_date end_date rs))))
    end.
Proof.
  unfold monthly_try, live_tier. destruct db_pool as [ini factory gs].
  cbn [initialize session_factory get_session].
  destruct ini as [[] | e0];
    [rewrite await_Ok, bind_ret_l | rewrite await_Raised; reflexivity].
  destruct factory; [| reflexivity].
  destruct gs as [[e1 | rs] | e1];
    [rewrite await_Ok, bind_ret_l; reflexivity
    | rewrite await_Ok, bind_ret_l
    | rewrite await_Raised; reflexivity].
  unfold execute_monthly. rewrite bind_ret_l. cbn [total].
  rewrite Decimal_of_str_sum, bind_ret_l. reflexivity.
Qed.

(** So does the [try] body of the aggregator. *)
Lemma total_try_live_tier property_id tenant_id db_pool :
  total_try property_id tenant_id db_pool =
    match live_tier db_pool with
    | LiveRaises e => raise e
    | LiveNoFactory => raise (Exception "Database pool not available")
    | LiveAnswers rs =>
        match total_rows property_id tenant_id rs with
        | [] => ret (revenue_result property_id tenant_id
                       (VStr "0.00") (VInt 0))
        | _ :: _ =>
            ret (revenue_result property_id tenant_id
                   (VStr (str_Decimal (sum_decimals
                      (map Reservation.total_amount
                         (total_rows property_id tenant_id rs)))))
                   (VInt (Z.of_nat
                      (length (total_rows property_id tenant_id rs)))))
        end
    end.
Proof.
  unfold total_try, live_tier. destruct db_pool as [ini factory gs].
  cbn [initialize session_factory get_session].
  destruct ini as [[] | e0];
    [rewrite await_Ok, bind_ret_l | rewrite await_Raised; reflexivity].
  destruct factory; [| reflexivity].
  destruct gs as [[e1 | rs] | e1];
    [rewrite await_Ok, bind_ret_l; reflexivity
    | rewrite await_Ok, bind_ret_l
    | rewrite await_Raised; reflexivity].
  unfold execute_total.
  destruct (total_rows property_id tenant_id rs) as [| r rows] eqn:E;
    rewrite bind_ret_l; [reflexivity |].
  cbv beta iota.
  change (total_revenue _) with
    (sql_sum (Reservation.total_amount r
              :: map Reservation.total_amount rows)).
  rewrite Decimal_of_str_sum_cons, bind_ret_l. reflexivity.
Qed.

(** With the month and both years in range, the function is its
    [try]/[except] statement run on the two bounds. *)
Lemma calculate_monthly_revenue_in_range property_id tenant_id month year db_pool :
  bounds_in_range year month →
  calculate_monthly_revenue property_id tenant_id month year db_pool =
    try_except
      (monthly_try property_id tenant_id (first_day year month)
         (first_day_of_next year month) db_pool)
      (monthly_except property_id tenant_id month year).
Proof.
  intros Hr. unfold calculate_monthly_revenue.
  rewrite month_bounds_in_range;
    [| apply Hr | apply Hr | apply bounds_in_range_next, Hr].
  rewrite bind_ret_l. reflexivity.
Qed.

(** When the live tier raises, the monthly calculator prints the
    diagnostic and answers from [monthly_mock]. *)
Lemma calculate_monthly_revenue_fallback property_id tenant_id month year db_pool e :
  bounds_in_range year month → live_tier db_pool = LiveRaises e →
  calculate_monthly_revenue property_id tenant_id month year db_pool =
    ([monthly_diagnostic property_id tenant_id month year e],
     Ok (dict_get (dict_get monthly_mock tenant_id ∅) property_id
           (VDecimal (mk_Decimal 0 0)))).
Proof.
  intros Hr He.
  rewrite (calculate_monthly_revenue_in_range _ _ _ _ _ Hr).
  rewrite monthly_try_live_tier, He, try_except_raise. reflexivity.
Qed.

(** When it answers, the result is the sum over the rows of the month. *)
Lemma calculate_monthly_revenue_live property_id tenant_id month year db_pool db :
  bounds_in_range year month → live_tier db_pool = LiveAnswers db →
  calculate_monthly_revenue property_id tenant_id month year db_pool =
    ([], Ok (VDecimal (sum_decimals (map Reservation.total_amount
           (monthly_rows property_id tenant_id (first_day year month)
              (first_day_of_next year month) db))))).
Proof.
  intros Hr Hlive.
  rewrite (calculate_monthly_revenue_in_range _ _ _ _ _ Hr).
  rewrite monthly_try_live_tier, Hlive. reflexivity.
Qed.

(** When the pool has no session factory, the result is [None]. *)
Lemma calculate_monthly_revenue_no_factory property_id tenant_id month year db_pool :
  bounds_in_range year month → live_tier db_pool = LiveNoFactory →
  calculate_monthly_revenue property_id tenant_id month year db_pool =
    ([], Ok VNone).
Proof.
  intros Hr Hlive.
  rewrite (calculate_monthly_revenue_in_range _ _ _ _ _ Hr).
  rewrite monthly_try_live_tier, Hlive. reflexivity.
Qed.

(** An unavailable live tier raises inside the [try] of the aggregator,
    which is then its handler run on that exception. *)
Lemma calculate_total_revenue_unavailable property_id tenant_id db_pool :
  live_unavailable db_pool = true →
  ∃ e,
    total_try property_id tenant_id db_pool = raise e
    ∧ calculate_total_revenue property_id tenant_id db_pool
      = total_except property_id tenant_id e
    ∧ (live_tier db_pool = LiveNoFactory →
       e = Exception "Database pool not available")
    ∧ (∀ e', live_tier db_pool = LiveRaises e' → e = e').
Proof.
  unfold live_unavailable, calculate_total_revenue. intros Hun.
  rewrite total_try_live_tier.
  destruct (live_tier db_pool) as [e | | rs]; [| | discriminate Hun].
  - exists e. rewrite try_except_raise.
    repeat split; [discriminate | congruence].
  - exists (Exception "Database pool not available").
    rewrite try_except_raise. repeat split; discriminate.
Qed.

(** The aggregator always returns a Revenue Result: from the row, from
    the empty answer, or from the fallback table. *)
Lemma calculate_total_revenue_shape property_id tenant_id db_pool :
  ∃ out s n,
    calculate_total_revenue property_id tenant_id db_pool =
      (out, Ok (revenue_result property_id tenant_id (VStr s) (VInt n)))
    ∧ 0 <= n.
Proof.
  destruct (live_unavailable db_pool) eqn:Hun.
  - destruct (calculate_total_revenue_unavailable property_id tenant_id
                db_pool Hun) as (e & _ & -> & _).
    destruct (total_except_ok property_id tenant_id e)
      as (s & n & -> & Hn & _).
    eauto.
  - unfold calculate_total_revenue. rewrite total_try_live_tier.
    unfold live_unavailable in Hun.
    destruct (live_tier db_pool) as [e | | rs]; try discriminate Hun.
    destruct (total_rows property_id tenant_id rs) as [| r rows].
    + exists [], "0.00", 0. split; [reflexivity | lia].
    + do 3 eexists. split; [reflexivity | lia].
Qed.

Lemma revenue_result_dom property_id tenant_id total count :
  dom (revenue_result property_id tenant_id total count) =
    ({[ "property_id"; "tenant_id"; "total"; "currency"; "count" ]}
       : gset string).
Proof.
  unfold revenue_result. rewrite !dom_insert_L, dom_singleton_L.
  set_solver.
Qed.

Lemma revenue_result_lookup property_id tenant_id total count :
  revenue_result property_id tenant_id total count !! "property_id"
    = Some (VStr property_id)
  ∧ revenue_result property_id tenant_id total count !! "tenant_id"
    = Some (VStr tenant_id)
  ∧ revenue_result property_id tenant_id total count !! "total" = Some total
  ∧ revenue_result property_id tenant_id total count !! "currency"
    = Some (VStr "USD")
  ∧ revenue_result property_id tenant_id total count !! "count" = Some count.
Proof. repeat split; reflexivity. Qed.

Lemma fallback_entry_absent {A} (table : gmap string (gmap string A))
    tenant_id property_id dflt :
  fallback_entry table tenant_id property_id = None →
  dict_get (dict_get table tenant_id ∅) property_id dflt = dflt.
Proof.
  unfold fallback_entry, dict_get.
  destruct (table !! tenant_id) as [m |]; simpl.
  - intros ->. reflexivity.
  - intros _. rewrite lookup_empty. reflexivity.
Qed.

(** ** Month bounds *)

(** C6, as stated, fails at the last representable year: for December
    9999 the end bound would be 1 January 10000, which [datetime]
    refuses, and the [ValueError] leaves the function. *)
Lemma C6_rollover_out_of_range :
  month_bounds 9999 12 = ([], Raised (ValueError "year 10000 is out of range"))
  ∧ calculate_monthly_revenue "prop-001" "tenant-a" 12 9999 (Ready [])
    = ([], Raised (ValueError "year 10000 is out of range")).
Proof. split; reflexivity. Qed.

(** C6 (amended): for a month in 1-12 and a year such that both bounds
    are representable, [start_date] is the first day of [(year, month)]
    and [end_date] the first day of [(year, month + 1)], which for
    December is [(year + 1, 1, 1)]; the live query and the handler are
    run on these two bounds. *)
Theorem C6_month_bounds year month :
  bounds_in_range year month →
  (month < 12 →
   month_bounds year month =
     ret (mk_datetime year month 1 0, mk_datetime year (month + 1) 1 0))
  ∧ (month = 12 →
     month_bounds year month =
       ret (mk_datetime year 12 1 0, mk_datetime (year + 1) 1 1 0))
  ∧ ∃ start_date end_date,
      month_bounds year month = ret (start_date, end_date)
      ∧ ∀ property_id tenant_id db_pool,
          calculate_monthly_revenue property_id tenant_id month year db_pool
          = try_except
              (monthly_try property_id tenant_id start_date end_date db_pool)
              (monthly_except property_id tenant_id month year).
Proof.
  intros Hr. pose proof (bounds_in_range_next _ _ Hr) as Hn.
  pose proof Hr as (Hm & Hy & H12).
  pose proof (month_bounds_in_range year month Hm (proj1 Hy) Hn) as Hb.
  split; [| split].
  - intros Hlt. rewrite Hb. unfold next_year, next_month.
    rewrite (proj2 (Z.ltb_lt _ _) Hlt). reflexivity.
  - intros ->. rewrite Hb. reflexivity.
  - do 2 eexists. split; [exact Hb |].
    intros. apply calculate_monthly_revenue_in_range, Hr.
Qed.

(** C6, at December 2024. *)
Lemma C6_month_bounds_witness :
  bounds_in_range 2024 12
  ∧ month_bounds 2024 12 =
      ret (mk_datetime 2024 12 1 0, mk_datetime 2025 1 1 0).
Proof.
  assert (Hr : bounds_in_range 2024 12).
  { unfold bounds_in_range, MINYEAR, MAXYEAR. lia. }
  split; [exact Hr |].
  exact (proj1 (proj2 (C6_month_bounds 2024 12 Hr)) eq_refl).
Defined.

(** C9: a month outside 1-12 makes the date construction of lines 12-16
    raise; this happens before the [try], so nothing is printed, no
    fallback is consulted and the exception reaches the caller, whatever
    the collaborator does. For a month and a year that fit a C [int]
    (as 13 and 0 do) the exception is a [ValueError]. *)
Theorem C9_month_out_of_range_raises property_id tenant_id month year db_pool :
  ¬ (1 <= month <= 12) →
  (∃ e,
     calculate_monthly_revenue property_id tenant_id month year db_pool
     = ([], Raised e))
  ∧ (fits_int month → fits_int year →
     ∃ msg,
       calculate_monthly_revenue property_id tenant_id month year db_pool
       = ([], Raised (ValueError msg))).
Proof.
  intros Hm.
  assert (Hout : ¬ bounds_in_range year month).
  { unfold bounds_in_range. tauto. }
  destruct (month_bounds_out_of_range year month Hout)
    as (e & Hb & Hval & _).
  unfold calculate_monthly_revenue. rewrite Hb. split.
  - exists e. reflexivity.
  - intros Hfm Hfy. destruct (Hval Hfy Hfm) as (msg & ->).
    exists msg. reflexivity.
Qed.

(** C9, at month 13 and at month 0. *)
Lemma C9_month_out_of_range_witness :
  (∃ msg, calculate_monthly_revenue "prop-001" "tenant-a" 13 2024 (Ready [])
          = ([], Raised (ValueError msg)))
  ∧ (∃ msg, calculate_monthly_revenue "prop-001" "tenant-a" 0 2024
              (InitFails (Exception "connection refused"))
            = ([], Raised (ValueError msg))).
Proof.
  split.
  - apply (C9_month_out_of_range_raises "prop-001" "tenant-a" 13 2024);
      unfold fits_int, INT_MIN, INT_MAX; lia.
  - apply (C9_month_out_of_range_raises "prop-001" "tenant-a" 0 2024);
      unfold fits_int, INT_MIN, INT_MAX; lia.
Defined.

(** ** The fallback of the monthly calculator *)

(** C2: with a pool that initializes but has no session factory, the
    [if] of line 25 is skipped, nothing is raised, so the handler does
    not run: nothing is printed, [monthly_mock] is not consulted and the
    function returns [None], although the table has an entry for the
    pair. The aggregator, on the same pool, raises into its handler and
    answers from its table. *)
Lemma C2_no_session_factory_returns_None :
  (∀ acquisition,
     calculate_monthly_revenue "prop-002" "tenant-a" 6 2024
       {| initialize := Ok tt; session_factory := false;
          get_session := acquisition |}
     = ([], Ok VNone))
  ∧ fallback_entry monthly_mock "tenant-a" "prop-002"
    = Some (VDecimal (mk_Decimal 1243875 3))
  ∧ (∀ acquisition,
       calculate_total_revenue "prop-002" "tenant-a"
         {| initialize := Ok tt; session_factory := false;
            get_session := acquisition |}
       = (["Database error for prop-002 (tenant: tenant-a): Database pool not available"],
          Ok (revenue_result "prop-002" "tenant-a"
                (VStr "4975.500") (VInt 4)))).
Proof.
  split; [| split].
  - intros acquisition. apply calculate_monthly_revenue_no_factory.
    + unfold bounds_in_range, MINYEAR, MAXYEAR. lia.
    + reflexivity.
  - vm_compute. reflexivity.
  - intros acquisition. unfold calculate_total_revenue.
    rewrite total_try_live_tier. cbn [live_tier initialize session_factory].
    rewrite try_except_raise. vm_compute. reflexivity.
Qed.

(** C4, as stated, fails for a year whose bounds [datetime] cannot
    represent: the [ValueError] is raised before the [try], so the failing
    live tier and the fallback are never reached. *)
Lemma C4_fallback_year_out_of_range :
  1 <= 12 <= 12
  ∧ live_tier (InitFails (Exception "connection refused"))
    = LiveRaises (Exception "connection refused")
  ∧ calculate_monthly_revenue "prop-002" "tenant-a" 12 9999
      (InitFails (Exception "connection refused"))
    = ([], Raised (ValueError "year 10000 is out of range"))
  ∧ calculate_monthly_revenue "prop-002" "tenant-a" 6 0
      (InitFails (Exception "connection refused"))
    = ([], Raised (ValueError "year 0 is out of range")).
Proof. repeat split; try lia; vm_compute; reflexivity. Qed.

(** C4 (amended): when the live tier raises (at initialization, at
    session acquisition or at query execution), for every month in 1-12
    and every year whose two bounds are representable,
    [calculate_monthly_revenue("prop-002", "tenant-a", month, year)]
    prints the diagnostic and returns [Decimal("1243.875")]: the value
    does not depend on the month or the year. *)
Theorem C4_monthly_fallback_ignores_dates month year db_pool e :
  bounds_in_range year month → live_tier db_pool = LiveRaises e →
  calculate_monthly_revenue "prop-002" "tenant-a" month year db_pool =
    ([monthly_diagnostic "prop-002" "tenant-a" month year e],
     Ok (VDecimal (mk_Decimal 1243875 3))).
Proof.
  intros Hr He.
  rewrite (calculate_monthly_revenue_fallback _ _ _ _ _ _ Hr He).
  reflexivity.
Qed.

(** C4, in June 2024 with a query that fails. *)
Lemma C4_monthly_fallback_witness :
  calculate_monthly_revenue "prop-002" "tenant-a" 6 2024
    (ExecuteFails (Exception "timeout"))
  = (["[calculate_monthly_revenue] DB error for prop-002/tenant-a 2024-06: timeout"],
     Ok (VDecimal (mk_Decimal 1243875 3))).
Proof.
  refine (C4_monthly_fallback_ignores_dates 6 2024
            (ExecuteFails (Exception "timeout")) (Exception "timeout") _ _).
  - unfold bounds_in_range, MINYEAR, MAXYEAR. lia.
  - reflexivity.
Defined.

(** ** The fallback of the aggregator *)

(** C3: when the live tier is unavailable, the aggregator answers
    [("prop-001", "tenant-a")] with total "2250.000", count 4, currency
    "USD" and [("prop-001", "tenant-b")] with total "0.000", count 0. The
    table is keyed by tenant and then by property: "prop-001" is no key
    of its first level, and the entries of the two tenants for it are
    different values. *)
Theorem C3_fallback_keyed_by_tenant db_pool :
  live_unavailable db_pool = true →
  ∃ out_a out_b,
    calculate_total_revenue "prop-001" "tenant-a" db_pool =
      (out_a, Ok (revenue_result "prop-001" "tenant-a"
                    (VStr "2250.000") (VInt 4)))
    ∧ calculate_total_revenue "prop-001" "tenant-b" db_pool =
      (out_b, Ok (revenue_result "prop-001" "tenant-b"
                    (VStr "0.000") (VInt 0)))
    ∧ revenue_result "prop-001" "tenant-a" (VStr "2250.000") (VInt 4)
        !! "currency" = Some (VStr "USD")
    ∧ mock_data !! "prop-001" = None
    ∧ fallback_entry mock_data "tenant-a" "prop-001"
      = Some {[ "total" := VStr "2250.000"; "count" := VInt 4 ]}
    ∧ fallback_entry mock_data "tenant-b" "prop-001"
      = Some {[ "total" := VStr "0.000"; "count" := VInt 0 ]}
    ∧ fallback_entry mock_data "tenant-a" "prop-001"
      ≠ fallback_entry mock_data "tenant-b" "prop-001".
Proof.
  intros Hun.
  assert (Htab : mock_data !! "prop-001" = None
    ∧ fallback_entry mock_data "tenant-a" "prop-001"
      = Some {[ "total" := VStr "2250.000"; "count" := VInt 4 ]}
    ∧ fallback_entry mock_data "tenant-b" "prop-001"
      = Some {[ "total" := VStr "0.000"; "count" := VInt 0 ]}).
  { repeat split; vm_compute; reflexivity. }
  destruct Htab as (Htop & Ha & Hb).
  assert (Hne : fallback_entry mock_data "tenant-a" "prop-001"
                ≠ fallback_entry mock_data "tenant-b" "prop-001").
  { rewrite Ha, Hb. intros Heq.
    apply (f_equal (λ o, o ≫= (.!! "count"))) in Heq.
    vm_compute in Heq. discriminate Heq. }
  destruct (calculate_total_revenue_unavailable "prop-001" "tenant-a"
              db_pool Hun) as (ea & _ & -> & _).
  destruct (calculate_total_revenue_unavailable "prop-001" "tenant-b"
              db_pool Hun) as (eb & _ & -> & _).
  do 2 eexists.
  split; [reflexivity |]. split; [reflexivity |].
  split; [reflexivity |]. auto.
Qed.

(** C3, with a pool that has no session factory. *)
Lemma C3_fallback_witness :
  live_unavailable NoSessionFactory = true
  ∧ ∃ out_a out_b,
      calculate_total_revenue "prop-001" "tenant-a" NoSessionFactory =
        (out_a, Ok (revenue_result "prop-001" "tenant-a"
                      (VStr "2250.000") (VInt 4)))
      ∧ calculate_total_revenue "prop-001" "tenant-b" NoSessionFactory =
        (out_b, Ok (revenue_result "prop-001" "tenant-b"
                      (VStr "0.000") (VInt 0))).
Proof.
  split; [reflexivity |].
  destruct (C3_fallback_keyed_by_tenant NoSessionFactory eq_refl)
    as (out_a & out_b & Ha & Hb & _).
  exists out_a, out_b. split; assumption.
Defined.

(** C7: a live query that succeeds and finds no row for the pair gives
    the Revenue Result with total "0.00" and count 0, and nothing is
    printed; when the pair is absent from [mock_data], an unavailable
    live tier gives total "0.000" and count 0; the two results are
    different dicts. *)
Theorem C7_live_zero_distinct_from_fallback property_id tenant_id db
    live_pool failed_pool :
  live_tier live_pool = LiveAnswers db →
  total_rows property_id tenant_id db = [] →
  fallback_entry mock_data tenant_id property_id = None →
  live_unavailable failed_pool = true →
  calculate_total_revenue property_id tenant_id live_pool =
    ([], Ok (revenue_result property_id tenant_id (VStr "0.00") (VInt 0)))
  ∧ (∃ out,
       calculate_total_revenue property_id tenant_id failed_pool =
         (out, Ok (revenue_result property_id tenant_id
                     (VStr "0.000") (VInt 0))))
  ∧ revenue_result property_id tenant_id (VStr "0.00") (VInt 0)
    ≠ revenue_result property_id tenant_id (VStr "0.000") (VInt 0).
Proof.
  intros Hlive Hrows Habs Hun. split; [| split].
  - unfold calculate_total_revenue.
    rewrite total_try_live_tier, Hlive, Hrows. reflexivity.
  - destruct (calculate_total_revenue_unavailable property_id tenant_id
                failed_pool Hun) as (e & _ & -> & _).
    unfold total_except. rewrite (fallback_entry_absent _ _ _ _ Habs).
    eexists. reflexivity.
  - intros Heq. apply (f_equal (.!! "total")) in Heq.
    destruct (revenue_result_lookup property_id tenant_id
                (VStr "0.00") (VInt 0)) as (_ & _ & H1 & _).
    destruct (revenue_result_lookup property_id tenant_id
                (VStr "0.000") (VInt 0)) as (_ & _ & H2 & _).
    rewrite H1, H2 in Heq. discriminate Heq.
Qed.

(** C7, for a tenant and a property outside the fallback table, with a
    table that only holds another tenant's reservation. *)
Lemma C7_live_zero_witness :
  calculate_total_revenue "prop-009" "tenant-c"
    (Ready [Reservation.mk "res-001" "prop-009" "tenant-a"
              (mk_Decimal 100000 3) (mk_datetime 2024 6 1 0)]) =
    ([], Ok (revenue_result "prop-009" "tenant-c" (VStr "0.00") (VInt 0)))
  ∧ (∃ out,
       calculate_total_revenue "prop-009" "tenant-c" NoSessionFactory =
         (out, Ok (revenue_result "prop-009" "tenant-c"
                     (VStr "0.000") (VInt 0)))).
Proof.
  destruct (C7_live_zero_distinct_from_fallback "prop-009" "tenant-c"
              [Reservation.mk "res-001" "prop-009" "tenant-a"
                 (mk_Decimal 100000 3) (mk_datetime 2024 6 1 0)]
              (Ready [Reservation.mk "res-001" "prop-009" "tenant-a"
                        (mk_Decimal 100000 3) (mk_datetime 2024 6 1 0)])
              NoSessionFactory eq_refl eq_refl eq_refl eq_refl)
    as (H1 & H2 & _).
  split; assumption.
Defined.

(** C8: a pool without a session factory makes the [try] body raise
    [Exception("Database pool not available")]; this exception, like
    any exception of the live query, is handled by the one [except]
    clause: the function is the handler run on it, which prints the
    diagnostic and returns the fallback result, so the caller gets a
    result and no exception. *)
Theorem C8_unavailable_pool_unified_fallback property_id tenant_id db_pool :
  live_unavailable db_pool = true →
  ∃ e s n,
    total_try property_id tenant_id db_pool = ([], Raised e)
    ∧ (live_tier db_pool = LiveNoFactory →
       e = Exception "Database pool not available")
    ∧ (∀ e', live_tier db_pool = LiveRaises e' → e = e')
    ∧ calculate_total_revenue property_id tenant_id db_pool
      = total_except property_id tenant_id e
    ∧ calculate_total_revenue property_id tenant_id db_pool
      = ([total_diagnostic property_id tenant_id e],
         Ok (revenue_result property_id tenant_id (VStr s) (VInt n))).
Proof.
  intros Hun.
  destruct (calculate_total_revenue_unavailable property_id tenant_id
              db_pool Hun) as (e & Htry & Hcalc & Hnf & Herr).
  destruct (total_except_ok property_id tenant_id e) as (s & n & Hex & _).
  exists e, s, n. repeat split; try assumption.
  rewrite Hcalc. exact Hex.
Qed.

(** C8, for a pool without a session factory and for a failing query. *)
Lemma C8_unavailable_pool_witness :
  (∃ s n,
     calculate_total_revenue "prop-004" "tenant-b" NoSessionFactory
     = ([total_diagnostic "prop-004" "tenant-b"
           (Exception "Database pool not available")],
        Ok (revenue_result "prop-004" "tenant-b" (VStr s) (VInt n))))
  ∧ (∃ s n,
       calculate_total_revenue "prop-004" "tenant-b"
         (ExecuteFails (Exception "timeout"))
       = ([total_diagnostic "prop-004" "tenant-b" (Exception "timeout")],
          Ok (revenue_result "prop-004" "tenant-b" (VStr s) (VInt n)))).
Proof.
  split.
  - destruct (C8_unavailable_pool_unified_fallback "prop-004" "tenant-b"
                NoSessionFactory eq_refl)
      as (e & s & n & _ & He & _ & _ & H).
    exists s, n. rewrite <- (He eq_refl). exact H.
  - destruct (C8_unavailable_pool_unified_fallback "prop-004" "tenant-b"
                (ExecuteFails (Exception "timeout")) eq_refl)
      as (e & s & n & _ & _ & He & _ & H).
    exists s, n. rewrite (He (Exception "timeout") eq_refl) in H. exact H.
Defined.

(** C10: on every path (row found, no row, fallback) the aggregator
    returns a dict whose keys are exactly property_id, tenant_id, total,
    currency and count, where property_id and tenant_id are the
    arguments, currency is "USD", total is a string and count is a
    non-negative integer. *)
Theorem C10_revenue_result_shape property_id tenant_id db_pool :
  ∃ out res s n,
    calculate_total_revenue property_id tenant_id db_pool = (out, Ok res)
    ∧ dom res =
        ({[ "property_id"; "tenant_id"; "total"; "currency"; "count" ]}
           : gset string)
    ∧ res !! "property_id" = Some (VStr property_id)
    ∧ res !! "tenant_id" = Some (VStr tenant_id)
    ∧ res !! "total" = Some (VStr s)
    ∧ res !! "currency" = Some (VStr "USD")
    ∧ res !! "count" = Some (VInt n)
    ∧ 0 <= n.
Proof.
  destruct (calculate_total_revenue_shape property_id tenant_id db_pool)
    as (out & s & n & Hcalc & Hn).
  exists out, (revenue_result property_id tenant_id (VStr s) (VInt n)), s, n.
  split; [exact Hcalc |].
  split; [apply revenue_result_dom |].
  destruct (revenue_result_lookup property_id tenant_id (VStr s) (VInt n))
    as (H1 & H2 & H3 & H4 & H5).
  repeat split; assumption.
Qed.

(** ** The half-open month *)

Lemma monthly_where_spec property_id tenant_id start_date end_date r :
  monthly_where property_id tenant_id start_date end_date r = true ↔
  Reservation.property_id r = property_id
  ∧ Reservation.tenant_id r = tenant_id
  ∧ dt_le start_date (Reservation.check_in_date r) = true
  ∧ dt_lt (Reservation.check_in_date r) end_date = true.
Proof.
  unfold monthly_where. rewrite !andb_true_iff, !bool_decide_eq_true.
  tauto.
Qed.

(** C5: the rows the live monthly query sums are those of the property
    and tenant whose check-in lies in [start_date, end_date), where the
    bounds are the first day of the month and the first day of the next
    one. A reservation checked in on the first day of the month is among
    them and its amount is added to the total; one checked in on the
    first day of the next month is not, and the total is the same with
    or without it. *)
Theorem C5_half_open_interval property_id tenant_id month year db r :
  bounds_in_range year month →
  Reservation.property_id r = property_id →
  Reservation.tenant_id r = tenant_id →
  month_bounds year month =
    ret (first_day year month, first_day_of_next year month)
  ∧ (∀ r',
       In r' (monthly_rows property_id tenant_id (first_day year month)
                (first_day_of_next year month) db) ↔
       In r' db
       ∧ Reservation.property_id r' = property_id
       ∧ Reservation.tenant_id r' = tenant_id
       ∧ dt_le (first_day year month) (Reservation.check_in_date r') = true
       ∧ dt_lt (Reservation.check_in_date r')
           (first_day_of_next year month) = true)
  ∧ (Reservation.check_in_date r = first_day year month →
     ∃ d d',
       calculate_monthly_revenue property_id tenant_id month year (Ready db)
         = ([], Ok (VDecimal d))
       ∧ calculate_monthly_revenue property_id tenant_id month year
           (Ready (r :: db)) = ([], Ok (VDecimal d'))
       ∧ (dec_to_Q d' == dec_to_Q (Reservation.total_amount r) + dec_to_Q d)%Q)
  ∧ (Reservation.check_in_date r = first_day_of_next year month →
     calculate_monthly_revenue property_id tenant_id month year
       (Ready (r :: db))
     = calculate_monthly_revenue property_id tenant_id month year (Ready db)).
Proof.
  intros Hr Hp Ht.
  split; [| split; [| split]].
  - apply month_bounds_in_range;
      [apply Hr | apply Hr | apply bounds_in_range_next, Hr].
  - intros r'. unfold monthly_rows.
    rewrite List.filter_In, monthly_where_spec. tauto.
  - intros Hin.
    assert (Hw : monthly_where property_id tenant_id (first_day year month)
                   (first_day_of_next year month) r = true).
    { apply monthly_where_spec. rewrite Hin.
      repeat split; try assumption.
      - apply dt_le_refl.
      - apply first_day_lt_next, Hr. }
    do 2 eexists.
    split; [apply (calculate_monthly_revenue_live _ _ _ _ (Ready db) db Hr eq_refl) |].
    split; [apply (calculate_monthly_revenue_live _ _ _ _ (Ready (r :: db))
                     (r :: db) Hr eq_refl) |].
    unfold monthly_rows. simpl List.filter. rewrite Hw. rewrite map_cons.
    apply sum_decimals_cons_to_Q.
  - intros Hout.
    assert (Hw : monthly_where property_id tenant_id (first_day year month)
                   (first_day_of_next year month) r = false).
    { unfold monthly_where. rewrite Hout, dt_lt_irrefl.
      apply andb_false_r. }
    rewrite (calculate_monthly_revenue_live _ _ _ _ (Ready (r :: db)) (r :: db)
               Hr eq_refl).
    rewrite (calculate_monthly_revenue_live _ _ _ _ (Ready db) db Hr eq_refl).
    unfold monthly_rows. simpl List.filter. rewrite Hw. reflexivity.
Qed.

(** C5, in June 2024: a check-in on 1 June counts, one on 1 July does
    not. *)
Lemma C5_half_open_witness :
  (∃ d d',
     calculate_monthly_revenue "prop-001" "tenant-a" 6 2024 (Ready [])
       = ([], Ok (VDecimal d))
     ∧ calculate_monthly_revenue "prop-001" "tenant-a" 6 2024
         (Ready [Reservation.mk "res-001" "prop-001" "tenant-a"
                   (mk_Decimal 333333 3) (mk_datetime 2024 6 1 0)])
       = ([], Ok (VDecimal d'))
     ∧ (dec_to_Q d' == dec_to_Q (mk_Decimal 333333 3) + dec_to_Q d)%Q)
  ∧ calculate_monthly_revenue "prop-001" "tenant-a" 6 2024
      (Ready [Reservation.mk "res-002" "prop-001" "tenant-a"
                (mk_Decimal 500000 3) (mk_datetime 2024 7 1 0)])
    = calculate_monthly_revenue "prop-001" "tenant-a" 6 2024 (Ready []).
Proof.
  assert (Hr : bounds_in_range 2024 6).
  { unfold bounds_in_range, MINYEAR, MAXYEAR. lia. }
  split.
  - exact (proj1 (proj2 (proj2
      (C5_half_open_interval "prop-001" "tenant-a" 6 2024 []
         (Reservation.mk "res-001" "prop-001" "tenant-a"
            (mk_Decimal 333333 3) (mk_datetime 2024 6 1 0))
         Hr eq_refl eq_refl))) eq_refl).
  - exact (proj2 (proj2 (proj2
      (C5_half_open_interval "prop-001" "tenant-a" 6 2024 []
         (Reservation.mk "res-002" "prop-001" "tenant-a"
            (mk_Decimal 500000 3) (mk_datetime 2024 7 1 0))
         Hr eq_refl eq_refl))) eq_refl).
Defined.

(** ** Well-formed results *)

Lemma monthly_rows_nonneg property_id tenant_id start_date end_date db :
  (∀ r, In r db → Reservation.property_id r = property_id →
        Reservation.tenant_id r = tenant_id →
        dec_nonneg (Reservation.total_amount r)) →
  Forall dec_nonneg
    (map Reservation.total_amount
       (monthly_rows property_id tenant_id start_date end_date db)).
Proof.
  intros Hdb. apply List.Forall_forall. intros d Hd.
  apply List.in_map_iff in Hd. destruct Hd as (r & <- & Hr).
  unfold monthly_rows in Hr. apply List.filter_In in Hr.
  destruct Hr as (Hin & Hw). apply monthly_where_spec in Hw.
  apply Hdb; tauto.
Qed.

(** C1, as stated, fails on two inputs with a month in 1-12: December
    9999, where the end bound is not representable and [ValueError]
    reaches the caller, and a table holding a negative amount, where the
    live sum is negative. *)
Lemma C1_monthly_not_always_nonneg_decimal :
  calculate_monthly_revenue "prop-001" "tenant-a" 12 9999 (Ready [])
    = ([], Raised (ValueError "year 10000 is out of range"))
  ∧ calculate_monthly_revenue "prop-001" "tenant-a" 6 2024
      (Ready [Reservation.mk "res-refund" "prop-001" "tenant-a"
                (mk_Decimal (-50000) 3) (mk_datetime 2024 6 15 0)])
    = ([], Ok (VDecimal (mk_Decimal (-50000) 3)))
  ∧ ¬ dec_nonneg (mk_Decimal (-50000) 3).
Proof.
  split; [reflexivity |]. split; [reflexivity |].
  unfold dec_nonneg. simpl. lia.
Qed.

(** C1 (amended): for a month in 1-12 and a year whose two bounds are
    representable, when the collaborator either raises or answers the
    query, [calculate_monthly_revenue] returns a Decimal and raises
    nothing, whatever the table holds; the Decimal is non-negative when
    the amounts of the tenant's reservations for the property are. For
    every input and every collaborator, [calculate_total_revenue]
    returns a complete Revenue Result and raises nothing. *)
Theorem C1_two_tier_well_formed property_id tenant_id month year db_pool :
  bounds_in_range year month →
  live_tier db_pool ≠ LiveNoFactory →
  (∃ out d,
     calculate_monthly_revenue property_id tenant_id month year db_pool
       = (out, Ok (VDecimal d))
     ∧ ((∀ db r, live_tier db_pool = LiveAnswers db → In r db →
                 Reservation.property_id r = property_id →
                 Reservation.tenant_id r = tenant_id →
                 dec_nonneg (Reservation.total_amount r)) →
        dec_nonneg d))
  ∧ (∀ db_pool', ∃ out s n,
       calculate_total_revenue property_id tenant_id db_pool'
         = (out, Ok (revenue_result property_id tenant_id (VStr s) (VInt n)))
       ∧ 0 <= n
       ∧ dom (revenue_result property_id tenant_id (VStr s) (VInt n)) =
           ({[ "property_id"; "tenant_id"; "total"; "currency"; "count" ]}
              : gset string)).
Proof.
  intros Hr Hnf. split.
  - destruct (live_tier db_pool) as [e | | db] eqn:Hlive.
    + rewrite (calculate_monthly_revenue_fallback _ _ _ _ _ _ Hr Hlive).
      destruct (monthly_mock_decimal tenant_id property_id) as (d & -> & Hd).
      eauto.
    + congruence.
    + rewrite (calculate_monthly_revenue_live _ _ _ _ _ _ Hr Hlive).
      do 2 eexists. split; [reflexivity |]. intros Hdb.
      apply sum_decimals_nonneg, monthly_rows_nonneg.
      intros r. apply (Hdb db r eq_refl).
  - intros db_pool'.
    destruct (calculate_total_revenue_shape property_id tenant_id db_pool')
      as (out & s & n & Hcalc & Hn).
    exists out, s, n. split; [exact Hcalc |]. split; [exact Hn |].
    apply revenue_result_dom.
Qed.

(** C1, in June 2024 with a table of two reservations, with a table
    that holds a negative amount, and with a pool whose initialization
    fails. *)
Lemma C1_two_tier_witness :
  (∃ out d,
     calculate_monthly_revenue "prop-001" "tenant-a" 6 2024
       (Ready [Reservation.mk "res-001" "prop-001" "tenant-a"
                 (mk_Decimal 1000000 3) (mk_datetime 2024 6 1 0);
               Reservation.mk "res-002" "prop-001" "tenant-a"
                 (mk_Decimal 125050 2) (mk_datetime 2024 6 30 0)])
       = (out, Ok (VDecimal d))
     ∧ dec_nonneg d)
  ∧ (∃ out d,
       calculate_monthly_revenue "prop-001" "tenant-a" 6 2024
         (Ready [Reservation.mk "res-refund" "prop-001" "tenant-a"
                   (mk_Decimal (-50000) 3) (mk_datetime 2024 6 15 0)])
         = (out, Ok (VDecimal d)))
  ∧ (∃ out d,
       calculate_monthly_revenue "prop-001" "tenant-a" 6 2024
         (InitFails (Exception "connection refused"))
         = (out, Ok (VDecimal d))
       ∧ dec_nonneg d).
Proof.
  assert (Hr : bounds_in_range 2024 6).
  { unfold bounds_in_range, MINYEAR, MAXYEAR. lia. }
  split; [| split].
  - destruct (proj1 (C1_two_tier_well_formed "prop-001" "tenant-a" 6 2024
                       (Ready [Reservation.mk "res-001" "prop-001" "tenant-a"
                                 (mk_Decimal 1000000 3)
                                 (mk_datetime 2024 6 1 0);
                               Reservation.mk "res-002" "prop-001" "tenant-a"
                                 (mk_Decimal 125050 2)
                                 (mk_datetime 2024 6 30 0)])
                       Hr ltac:(discriminate)))
      as (out & d & Hcalc & Hnn).
    exists out, d. split; [exact Hcalc |]. apply Hnn.
    intros db r Hdb Hin _ _. injection Hdb as <-.
    unfold dec_nonneg.
    destruct Hin as [<- | [<- | []]]; simpl; lia.
  - destruct (proj1 (C1_two_tier_well_formed "prop-001" "tenant-a" 6 2024
                       (Ready [Reservation.mk "res-refund" "prop-001"
                                 "tenant-a" (mk_Decimal (-50000) 3)
                                 (mk_datetime 2024 6 15 0)])
                       Hr ltac:(discriminate)))
      as (out & d & Hcalc & _).
    exists out, d. exact Hcalc.
  - destruct (proj1 (C1_two_tier_well_formed "prop-001" "tenant-a" 6 2024
                       (InitFails (Exception "connection refused"))
                       Hr ltac:(discriminate)))
      as (out & d & Hcalc & Hnn).
    exists out, d. split; [exact Hcalc |]. apply Hnn.
    intros db r Hdb. discriminate Hdb.
Defined.

(** * Further properties of the two operations *)

(** ** When the monthly calculator raises *)

(** In range, the monthly calculator returns a value, whatever the
    collaborator does. *)
Lemma calculate_monthly_revenue_returns property_id tenant_id month year db_pool :
  bounds_in_range year month →
  ∃ out v,
    calculate_monthly_revenue property_id tenant_id month year db_pool
    = (out, Ok v).
Proof.
  intros Hr. destruct (live_tier db_pool) as [e | | db] eqn:Hlive.
  - rewrite (calculate_monthly_revenue_fallback _ _ _ _ _ _ Hr Hlive). eauto.
  - rewrite (calculate_monthly_revenue_no_factory _ _ _ _ _ Hr Hlive). eauto.
  - rewrite (calculate_monthly_revenue_live _ _ _ _ _ _ Hr Hlive). eauto.
Qed.

(** X1: the monthly calculator raises to its caller exactly when the
    month is outside 1-12, the year outside 1-9999, or the month is
    December of 9999. The exception then comes from the date
    construction, before anything is printed: a [ValueError] when the
    year and the month fit a C [int], an [OverflowError] when one of
    them does not. No behaviour of the collaborator makes it raise. *)
Theorem X1_monthly_raises_iff_out_of_range property_id tenant_id month year db_pool :
  ((∃ out e,
      calculate_monthly_revenue property_id tenant_id month year db_pool
      = (out, Raised e))
   ↔ ¬ bounds_in_range year month)
  ∧ (¬ bounds_in_range year month →
     ∃ e,
       calculate_monthly_revenue property_id tenant_id month year db_pool
       = ([], Raised e)
       ∧ (fits_int year → fits_int month → ∃ msg, e = ValueError msg)
       ∧ (¬ fits_int year ∨ ¬ fits_int month →
          ∃ msg, e = OverflowError msg)).
Proof.
  assert (Hraise : ¬ bounds_in_range year month →
            ∃ e,
              calculate_monthly_revenue property_id tenant_id month year
                db_pool = ([], Raised e)
              ∧ (fits_int year → fits_int month → ∃ msg, e = ValueError msg)
              ∧ (¬ fits_int year ∨ ¬ fits_int month →
                 ∃ msg, e = OverflowError msg)).
  { intros Hout.
    destruct (month_bounds_out_of_range _ _ Hout) as (e & Hb & Hcls).
    exists e. split; [| exact Hcls].
    unfold calculate_monthly_revenue. rewrite Hb. reflexivity. }
  split; [split |].
  - intros (out & e & Heq) Hr.
    destruct (calculate_monthly_revenue_returns property_id tenant_id
                month year db_pool Hr) as (out' & v & Hv).
    rewrite Hv in Heq. discriminate Heq.
  - intros Hout. destruct (Hraise Hout) as (e & He & _). eauto.
  - exact Hraise.
Qed.

(** X1, at December 9999 and at year 2147483648. *)
Lemma X1_monthly_raises_witness :
  (∃ msg,
     calculate_monthly_revenue "prop-001" "tenant-a" 12 9999 (Ready [])
     = ([], Raised (ValueError msg)))
  ∧ (∃ msg,
       calculate_monthly_revenue "prop-001" "tenant-a" 6 2147483648
         (Ready []) = ([], Raised (OverflowError msg))).
Proof.
  split.
  - destruct (proj2 (X1_monthly_raises_iff_out_of_range "prop-001"
                       "tenant-a" 12 9999 (Ready [])))
      as (e & He & Hval & _).
    + unfold bounds_in_range, MINYEAR, MAXYEAR. lia.
    + destruct Hval as (msg & ->);
        [unfold fits_int, INT_MIN, INT_MAX; lia .. |].
      exists msg. exact He.
  - destruct (proj2 (X1_monthly_raises_iff_out_of_range "prop-001"
                       "tenant-a" 6 2147483648 (Ready [])))
      as (e & He & _ & Hovf).
    + unfold bounds_in_range, MINYEAR, MAXYEAR. lia.
    + destruct Hovf as (msg & ->);
        [left; unfold fits_int, INT_MIN, INT_MAX; lia |].
      exists msg. exact He.
Defined.

(** ** The rows of a month *)

Lemma dt_lt_spec a b :
  dt_lt a b = true ↔
  dt_year a < dt_year b ∨
  (dt_year a = dt_year b ∧
   (dt_month a < dt_month b ∨
    (dt_month a = dt_month b ∧
     (dt_day a < dt_day b ∨
      (dt_day a = dt_day b ∧ dt_tod a < dt_tod b))))).
Proof.
  unfold dt_lt.
  repeat match goal with
         | |- context [?x <? ?y] => destruct (Z.ltb_spec x y)
         | |- context [?x =? ?y] => destruct (Z.eqb_spec x y)
         end; simpl; intuition (try lia; try discriminate).
Qed.

Lemma dt_le_spec a b : dt_le a b = true ↔ ¬ (dt_lt b a = true).
Proof.
  unfold dt_le. rewrite negb_true_iff. destruct (dt_lt b a); split;
    intros H; try discriminate; try reflexivity; try (intros H'; discriminate).
  exfalso. apply H. reflexivity.
Qed.

(** For a well-formed check-in date, lying in the half-open interval of
    the month is having the year and the month asked for. *)
Lemma monthly_where_in_month property_id tenant_id month year r :
  bounds_in_range year month →
  valid_check_in (Reservation.check_in_date r) →
  monthly_where property_id tenant_id (first_day year month)
    (first_day_of_next year month) r
  = in_month property_id tenant_id year month r.
Proof.
  intros (Hm & Hy & H12) (Hcm & Hcd & Hct).
  apply eq_true_iff_eq. rewrite monthly_where_spec.
  unfold in_month. rewrite !andb_true_iff, !bool_decide_eq_true, !Z.eqb_eq.
  rewrite dt_le_spec, !dt_lt_spec.
  unfold first_day, first_day_of_next, next_year, next_month. simpl.
  destruct (month <? 12) eqn:E;
    [apply Z.ltb_lt in E | apply Z.ltb_ge in E]; intuition lia.
Qed.

(** X2: when the live tier answers and the check-in dates of the table
    are well formed, the monthly revenue is the sum of the amounts of the
    reservations of the property and the tenant whose check-in has the
    year and the month asked for, and nothing is printed. *)
Theorem X2_live_monthly_sums_the_month property_id tenant_id month year db_pool db :
  bounds_in_range year month →
  live_tier db_pool = LiveAnswers db →
  (∀ r, In r db → valid_check_in (Reservation.check_in_date r)) →
  calculate_monthly_revenue property_id tenant_id month year db_pool =
    ([], Ok (VDecimal (sum_decimals (map Reservation.total_amount
           (List.filter (in_month property_id tenant_id year month) db))))).
Proof.
  intros Hr Hlive Hvalid.
  rewrite (calculate_monthly_revenue_live _ _ _ _ _ _ Hr Hlive).
  unfold monthly_rows.
  rewrite (List.filter_ext_in
             (monthly_where property_id tenant_id (first_day year month)
                (first_day_of_next year month))
             (in_month property_id tenant_id year month)); [reflexivity |].
  intros r Hin. apply monthly_where_in_month; auto.
Qed.

(** X2, in February 2024: the reservations of the 1st and of the 29th
    count, those of 31 January and of 1 March, and the one of another
    tenant, do not. *)
Lemma X2_live_monthly_witness :
  calculate_monthly_revenue "prop-001" "tenant-a" 2 2024
    (Ready [Reservation.mk "r1" "prop-001" "tenant-a"
              (mk_Decimal 100000 3) (mk_datetime 2024 1 31 86399999999);
            Reservation.mk "r2" "prop-001" "tenant-a"
              (mk_Decimal 200000 3) (mk_datetime 2024 2 1 0);
            Reservation.mk "r3" "prop-001" "tenant-a"
              (mk_Decimal 30050 2) (mk_datetime 2024 2 29 86399999999);
            Reservation.mk "r4" "prop-001" "tenant-a"
              (mk_Decimal 400000 3) (mk_datetime 2024 3 1 0);
            Reservation.mk "r5" "prop-001" "tenant-b"
              (mk_Decimal 500000 3) (mk_datetime 2024 2 10 0)])
  = ([], Ok (VDecimal (mk_Decimal 500500 3))).
Proof.
  refine (X2_live_monthly_sums_the_month "prop-001" "tenant-a" 2 2024
            (Ready _) _ _ eq_refl _).
  - unfold bounds_in_range, MINYEAR, MAXYEAR. lia.
  - intros r Hin. unfold valid_check_in.
    destruct Hin as [<- | [<- | [<- | [<- | [<- | []]]]]]; simpl; lia.
Defined.

(** ** What the live results are *)

Lemma sum_decimals_to_Q xs : (dec_to_Q (sum_decimals xs) == sum_Q xs)%Q.
Proof.
  induction xs as [| x xs IH].
  - reflexivity.
  - rewrite sum_decimals_cons_to_Q. simpl. rewrite IH. reflexivity.
Qed.

Lemma sum_decimals_scale xs : scale (sum_decimals xs) = max_scale xs.
Proof.
  induction xs as [| x xs IH].
  - reflexivity.
  - unfold sum_decimals. rewrite sql_sum_cons. simpl max_scale.
    rewrite <- IH. destruct xs as [| y ys].
    + simpl. lia.
    + reflexivity.
Qed.

(** X3: when the live tier answers, the monthly revenue is a Decimal
    that denotes exactly the sum of the amounts of the rows of the
    month, with as many decimal places as the amount that has most. *)
Theorem X3_live_monthly_exact_sum property_id tenant_id month year db_pool db :
  bounds_in_range year month →
  live_tier db_pool = LiveAnswers db →
  ∃ d,
    calculate_monthly_revenue property_id tenant_id month year db_pool
    = ([], Ok (VDecimal d))
    ∧ (dec_to_Q d ==
       sum_Q (map Reservation.total_amount
                (monthly_rows property_id tenant_id (first_day year month)
                   (first_day_of_next year month) db)))%Q
    ∧ scale d =
      max_scale (map Reservation.total_amount
                   (monthly_rows property_id tenant_id (first_day year month)
                      (first_day_of_next year month) db)).
Proof.
  intros Hr Hlive.
  rewrite (calculate_monthly_revenue_live _ _ _ _ _ _ Hr Hlive).
  eexists. split; [reflexivity |].
  split; [apply sum_decimals_to_Q | apply sum_decimals_scale].
Qed.

(** X3, with amounts 1000.000 and 1250.50 in June 2024. *)
Lemma X3_live_monthly_exact_sum_witness :
  ∃ d,
    calculate_monthly_revenue "prop-001" "tenant-a" 6 2024
      (Ready [Reservation.mk "r1" "prop-001" "tenant-a"
                (mk_Decimal 1000000 3) (mk_datetime 2024 6 1 0);
              Reservation.mk "r2" "prop-001" "tenant-a"
                (mk_Decimal 125050 2) (mk_datetime 2024 6 30 0)])
    = ([], Ok (VDecimal d))
    ∧ (dec_to_Q d == 22505 # 10)%Q
    ∧ scale d = 3%nat.
Proof.
  assert (Hr : bounds_in_range 2024 6).
  { unfold bounds_in_range, MINYEAR, MAXYEAR. lia. }
  destruct (X3_live_monthly_exact_sum "prop-001" "tenant-a" 6 2024
              (Ready [Reservation.mk "r1" "prop-001" "tenant-a"
                        (mk_Decimal 1000000 3) (mk_datetime 2024 6 1 0);
                      Reservation.mk "r2" "prop-001" "tenant-a"
                        (mk_Decimal 125050 2) (mk_datetime 2024 6 30 0)])
              _ Hr eq_refl) as (d & Hcalc & HQ & Hs).
  exists d. split; [exact Hcalc |]. split.
  - rewrite HQ. vm_compute. reflexivity.
  - rewrite Hs. reflexivity.
Defined.

(** X4: when the live tier answers, the count of the aggregator is the
    number of reservations of the property and the tenant in the table;
    when there is at least one, the total is the string of a Decimal
    that denotes exactly the sum of their amounts; when there is none,
    it is "0.00". Nothing is printed. *)
Theorem X4_live_total_sum_and_count property_id tenant_id db_pool db :
  live_tier db_pool = LiveAnswers db →
  ∃ s,
    calculate_total_revenue property_id tenant_id db_pool =
      ([], Ok (revenue_result property_id tenant_id (VStr s)
                 (VInt (Z.of_nat
                    (length (total_rows property_id tenant_id db))))))
    ∧ (total_rows property_id tenant_id db = [] → s = "0.00")
    ∧ (total_rows property_id tenant_id db ≠ [] →
       ∃ d, s = str_Decimal d
            ∧ (dec_to_Q d ==
               sum_Q (map Reservation.total_amount
                        (total_rows property_id tenant_id db)))%Q).
Proof.
  intros Hlive. unfold calculate_total_revenue.
  rewrite total_try_live_tier, Hlive.
  destruct (total_rows property_id tenant_id db) as [| r rows] eqn:E.
  - exists "0.00". split; [reflexivity |]. split; [reflexivity |].
    intros Hne. congruence.
  - eexists. split; [reflexivity |]. split; [discriminate |].
    intros _. eexists. split; [reflexivity | apply sum_decimals_to_Q].
Qed.

(** X4, with two reservations of the pair and one of another tenant. *)
Lemma X4_live_total_witness :
  ∃ s,
    calculate_total_revenue "prop-001" "tenant-a"
      (Ready [Reservation.mk "r1" "prop-001" "tenant-a"
                (mk_Decimal 1000000 3) (mk_datetime 2024 6 1 0);
              Reservation.mk "r2" "prop-001" "tenant-b"
                (mk_Decimal 700000 3) (mk_datetime 2024 6 2 0);
              Reservation.mk "r3" "prop-001" "tenant-a"
                (mk_Decimal 125050 2) (mk_datetime 2025 1 30 0)])
    = ([], Ok (revenue_result "prop-001" "tenant-a" (VStr s) (VInt 2))).
Proof.
  destruct (X4_live_total_sum_and_count "prop-001" "tenant-a"
              (Ready [Reservation.mk "r1" "prop-001" "tenant-a"
                        (mk_Decimal 1000000 3) (mk_datetime 2024 6 1 0);
                      Reservation.mk "r2" "prop-001" "tenant-b"
                        (mk_Decimal 700000 3) (mk_datetime 2024 6 2 0);
                      Reservation.mk "r3" "prop-001" "tenant-a"
                        (mk_Decimal 125050 2) (mk_datetime 2025 1 30 0)])
              _ eq_refl) as (s & Hcalc & _).
  exists s. exact Hcalc.
Defined.

(** ** Tenant isolation on the live path *)

Lemma filter_skip {A} (f : A → bool) l1 r l2 :
  f r = false → List.filter f (l1 ++ r :: l2) = List.filter f (l1 ++ l2).
Proof.
  intros Hf. rewrite !List.filter_app. simpl. rewrite Hf. reflexivity.
Qed.

Lemma total_where_other property_id tenant_id r :
  Reservation.property_id r ≠ property_id
  ∨ Reservation.tenant_id r ≠ tenant_id →
  total_where property_id tenant_id r = false.
Proof.
  intros Hne. unfold total_where. apply andb_false_iff.
  rewrite !bool_decide_eq_false. exact Hne.
Qed.

Lemma monthly_where_other property_id tenant_id start_date end_date r :
  Reservation.property_id r ≠ property_id
  ∨ Reservation.tenant_id r ≠ tenant_id →
  monthly_where property_id tenant_id start_date end_date r = false.
Proof.
  intros Hne. unfold monthly_where.
  pose proof (total_where_other property_id tenant_id r Hne) as Hw.
  unfold total_where in Hw. rewrite Hw. reflexivity.
Qed.

(** X5: a reservation of another tenant, or of another property, has no
    effect on the aggregator: the result, total and count, is the same
    with the reservation anywhere in the table and without it. *)
Theorem X5_total_ignores_other_tenants property_id tenant_id db1 db2 r :
  Reservation.property_id r ≠ property_id
  ∨ Reservation.tenant_id r ≠ tenant_id →
  calculate_total_revenue property_id tenant_id (Ready (db1 ++ r :: db2))
  = calculate_total_revenue property_id tenant_id (Ready (db1 ++ db2)).
Proof.
  intros Hne. unfold calculate_total_revenue.
  rewrite !total_try_live_tier. cbn [live_tier Ready initialize
    session_factory get_session].
  unfold total_rows.
  rewrite (filter_skip _ db1 r db2 (total_where_other _ _ _ Hne)).
  reflexivity.
Qed.

(** X5, with a reservation of tenant-b between two of tenant-a. *)
Lemma X5_total_isolation_witness :
  calculate_total_revenue "prop-001" "tenant-a"
    (Ready ([Reservation.mk "r1" "prop-001" "tenant-a"
               (mk_Decimal 1000000 3) (mk_datetime 2024 6 1 0)]
            ++ Reservation.mk "r2" "prop-001" "tenant-b"
                 (mk_Decimal 999999 3) (mk_datetime 2024 6 1 0)
            :: [Reservation.mk "r3" "prop-001" "tenant-a"
                  (mk_Decimal 250000 3) (mk_datetime 2024 7 1 0)]))
  = ([], Ok (revenue_result "prop-001" "tenant-a"
               (VStr "1250.000") (VInt 2))).
Proof.
  rewrite (X5_total_ignores_other_tenants "prop-001" "tenant-a" _ _
             (Reservation.mk "r2" "prop-001" "tenant-b"
                (mk_Decimal 999999 3) (mk_datetime 2024 6 1 0))).
  - reflexivity.
  - right. discriminate.
Defined.

(** X6: the same holds for the monthly calculator, for every month and
    year. *)
Theorem X6_monthly_ignores_other_tenants property_id tenant_id month year
    db1 db2 r :
  Reservation.property_id r ≠ property_id
  ∨ Reservation.tenant_id r ≠ tenant_id →
  calculate_monthly_revenue property_id tenant_id month year
    (Ready (db1 ++ r :: db2))
  = calculate_monthly_revenue property_id tenant_id month year
      (Ready (db1 ++ db2)).
Proof.
  intros Hne.
  assert (Htry : ∀ start_date end_date,
            monthly_try property_id tenant_id start_date end_date
              (Ready (db1 ++ r :: db2))
            = monthly_try property_id tenant_id start_date end_date
                (Ready (db1 ++ db2))).
  { intros. rewrite !monthly_try_live_tier.
    cbn [live_tier Ready initialize session_factory get_session].
    unfold monthly_rows.
    rewrite (filter_skip _ db1 r db2 (monthly_where_other _ _ _ _ _ Hne)).
    reflexivity. }
  unfold calculate_monthly_revenue, bind.
  destruct (month_bounds year month) as [out [[start_date end_date] | e]];
    [| reflexivity].
  rewrite Htry. reflexivity.
Qed.

(** X6, in June 2024 with a reservation of another property. *)
Lemma X6_monthly_isolation_witness :
  calculate_monthly_revenue "prop-001" "tenant-a" 6 2024
    (Ready ([] ++ Reservation.mk "r1" "prop-002" "tenant-a"
                    (mk_Decimal 999999 3) (mk_datetime 2024 6 1 0)
            :: [Reservation.mk "r2" "prop-001" "tenant-a"
                  (mk_Decimal 250000 3) (mk_datetime 2024 6 1 0)]))
  = ([], Ok (VDecimal (mk_Decimal 250000 3))).
Proof.
  rewrite (X6_monthly_ignores_other_tenants "prop-001" "tenant-a" 6 2024 _ _
             (Reservation.mk "r1" "prop-002" "tenant-a"
                (mk_Decimal 999999 3) (mk_datetime 2024 6 1 0))).
  - reflexivity.
  - left. discriminate.
Defined.

(** ** What the fallback depends on *)

Lemma bind_print_snd {A} (s : string) (k : unit → py A) :
  (bind (print s) k).2 = (k tt).2.
Proof. unfold bind, print. destruct (k tt) as [out r]. reflexivity. Qed.

Lemma total_except_result property_id tenant_id e e' :
  (total_except property_id tenant_id e).2
  = (total_except property_id tenant_id e').2.
Proof. unfold total_except. rewrite !bind_print_snd. reflexivity. Qed.

(** X7: the result of the aggregator in degraded mode does not depend on
    how the live tier failed: two unavailable collaborators (a failing
    initialization, no session factory, a failing acquisition or a
    failing query, with any exception) give the same Revenue Result, and
    each run calls [print] exactly once. *)
Theorem X7_total_fallback_independent_of_failure property_id tenant_id
    db_pool db_pool' :
  live_unavailable db_pool = true →
  live_unavailable db_pool' = true →
  (calculate_total_revenue property_id tenant_id db_pool).2
  = (calculate_total_revenue property_id tenant_id db_pool').2
  ∧ length (calculate_total_revenue property_id tenant_id db_pool).1 = 1%nat.
Proof.
  intros Hun Hun'.
  destruct (calculate_total_revenue_unavailable property_id tenant_id
              db_pool Hun) as (e & _ & -> & _).
  destruct (calculate_total_revenue_unavailable property_id tenant_id
              db_pool' Hun') as (e' & _ & -> & _).
  split; [apply total_except_result |].
  destruct (total_except_ok property_id tenant_id e) as (s & n & -> & _).
  reflexivity.
Qed.

(** X7, for a failing initialization and a failing query. *)
Lemma X7_total_fallback_witness :
  (calculate_total_revenue "prop-005" "tenant-b"
     (InitFails (Exception "connection refused"))).2
  = (calculate_total_revenue "prop-005" "tenant-b"
       (ExecuteFails (ValueError "bad parameter"))).2.
Proof.
  exact (proj1 (X7_total_fallback_independent_of_failure "prop-005"
                  "tenant-b" (InitFails (Exception "connection refused"))
                  (ExecuteFails (ValueError "bad parameter"))
                  eq_refl eq_refl)).
Defined.

(** X8: for every property and tenant, the value the monthly calculator
    returns when the live tier raises is the same for all months, years
    (in range) and exceptions; it is a non-negative Decimal. *)
Theorem X8_monthly_fallback_independent_of_date property_id tenant_id
    month year month' year' db_pool db_pool' e e' :
  bounds_in_range year month → bounds_in_range year' month' →
  live_tier db_pool = LiveRaises e → live_tier db_pool' = LiveRaises e' →
  ∃ d,
    (calculate_monthly_revenue property_id tenant_id month year db_pool).2
    = Ok (VDecimal d)
    ∧ (calculate_monthly_revenue property_id tenant_id month' year'
         db_pool').2 = Ok (VDecimal d)
    ∧ dec_nonneg d.
Proof.
  intros Hr Hr' He He'.
  rewrite (calculate_monthly_revenue_fallback _ _ _ _ _ _ Hr He).
  rewrite (calculate_monthly_revenue_fallback _ _ _ _ _ _ Hr' He').
  destruct (monthly_mock_decimal tenant_id property_id) as (d & Hd & Hnn).
  exists d. simpl. rewrite Hd. auto.
Qed.

(** X8, for January 2023 and December 2025. *)
Lemma X8_monthly_fallback_witness :
  ∃ d,
    (calculate_monthly_revenue "prop-004" "tenant-b" 1 2023
       (SessionFails (Exception "pool exhausted"))).2 = Ok (VDecimal d)
    ∧ (calculate_monthly_revenue "prop-004" "tenant-b" 12 2025
         (ExecuteFails (Exception "timeout"))).2 = Ok (VDecimal d)
    ∧ dec_nonneg d.
Proof.
  refine (X8_monthly_fallback_independent_of_date "prop-004" "tenant-b"
            1 2023 12 2025 (SessionFails (Exception "pool exhausted"))
            (ExecuteFails (Exception "timeout")) _ _ _ _ eq_refl eq_refl);
    unfold bounds_in_range, MINYEAR, MAXYEAR; lia.
Defined.

Lemma mock_data_unknown_tenant tenant_id :
  tenant_id ≠ "tenant-a" → tenant_id ≠ "tenant-b" →
  mock_data !! tenant_id = None ∧ monthly_mock !! tenant_id = None.
Proof.
  intros Ha Hb. unfold mock_data, monthly_mock.
  rewrite !lookup_insert, !lookup_singleton.
  repeat case_decide; try congruence. split; reflexivity.
Qed.

(** X9: a tenant other than "tenant-a" and "tenant-b" gets zero in
    degraded mode, for every property: total "0.000" and count 0 from the
    aggregator, [Decimal('0')] from the monthly calculator. *)
Theorem X9_unknown_tenant_fallback_zero property_id tenant_id :
  tenant_id ≠ "tenant-a" → tenant_id ≠ "tenant-b" →
  (∀ db_pool, live_unavailable db_pool = true →
     (calculate_total_revenue property_id tenant_id db_pool).2 =
       Ok (revenue_result property_id tenant_id (VStr "0.000") (VInt 0)))
  ∧ (∀ month year db_pool e,
       bounds_in_range year month → live_tier db_pool = LiveRaises e →
       (calculate_monthly_revenue property_id tenant_id month year
          db_pool).2 = Ok (VDecimal (mk_Decimal 0 0))).
Proof.
  intros Ha Hb.
  destruct (mock_data_unknown_tenant tenant_id Ha Hb) as (Hmock & Hmonthly).
  split.
  - intros db_pool Hun.
    destruct (calculate_total_revenue_unavailable property_id tenant_id
                db_pool Hun) as (e & _ & -> & _).
    unfold total_except. rewrite bind_print_snd.
    rewrite fallback_entry_absent; [reflexivity |].
    unfold fallback_entry. rewrite Hmock. reflexivity.
  - intros month year db_pool e Hr He.
    rewrite (calculate_monthly_revenue_fallback _ _ _ _ _ _ Hr He).
    simpl. rewrite fallback_entry_absent; [reflexivity |].
    unfold fallback_entry. rewrite Hmonthly. reflexivity.
Qed.

(** X9, for "tenant-c". *)
Lemma X9_unknown_tenant_witness :
  (calculate_total_revenue "prop-001" "tenant-c" NoSessionFactory).2 =
    Ok (revenue_result "prop-001" "tenant-c" (VStr "0.000") (VInt 0))
  ∧ (calculate_monthly_revenue "prop-001" "tenant-c" 6 2024
       (InitFails (Exception "connection refused"))).2
    = Ok (VDecimal (mk_Decimal 0 0)).
Proof.
  assert (Ha : "tenant-c" ≠ "tenant-a") by discriminate.
  assert (Hb : "tenant-c" ≠ "tenant-b") by discriminate.
  destruct (X9_unknown_tenant_fallback_zero "prop-001" "tenant-c" Ha Hb)
    as (Htotal & Hmonthly).
  split.
  - apply Htotal. reflexivity.
  - apply (Hmonthly 6 2024 _ (Exception "connection refused"));
      [| reflexivity].
    unfold bounds_in_range, MINYEAR, MAXYEAR. lia.
Defined.

(** ** Diagnostics *)

(** X10: the aggregator calls [print] exactly when the result comes
    from the fallback table: never when the live tier answers, and
    exactly once when it does not, with the diagnostic message of the
    very exception that the [try] body raised. *)
Theorem X10_total_diagnostic_iff_fallback property_id tenant_id db_pool :
  ((calculate_total_revenue property_id tenant_id db_pool).1 = []
   ↔ live_unavailable db_pool = false)
  ∧ ((∃ e,
        total_try property_id tenant_id db_pool = ([], Raised e)
        ∧ (calculate_total_revenue property_id tenant_id db_pool).1
          = ["Database error for " +:+ property_id +:+ " (tenant: "
             +:+ tenant_id +:+ "): " +:+ str_exn e])
     ↔ live_unavailable db_pool = true).
Proof.
  destruct (live_unavailable db_pool) eqn:Hun.
  - destruct (calculate_total_revenue_unavailable property_id tenant_id
                db_pool Hun) as (e & Htry & Hcalc & _).
    rewrite Hcalc.
    destruct (total_except_ok property_id tenant_id e) as (s & n & -> & _).
    simpl. split; split; try discriminate; try reflexivity.
    intros _. exists e. split; [exact Htry | reflexivity].
  - unfold live_unavailable in Hun.
    destruct (live_tier db_pool) as [e | | db] eqn:Hlive;
      try discriminate Hun.
    unfold calculate_total_revenue. rewrite total_try_live_tier, Hlive.
    destruct (total_rows property_id tenant_id db); simpl;
      (split; split; try reflexivity; try discriminate;
       intros (e & He & _); discriminate He).
Qed.

Lemma fmt_02d_month month :
  1 <= month <= 12 →
  String.length (fmt_02d month) = 2%nat
  ∧ (month < 10 → fmt_02d month = "0" +:+ pretty month)
  ∧ (10 <= month → fmt_02d month = pretty month).
Proof.
  intros Hm.
  assert (Hcases : month = 1 ∨ month = 2 ∨ month = 3 ∨ month = 4
                   ∨ month = 5 ∨ month = 6 ∨ month = 7 ∨ month = 8
                   ∨ month = 9 ∨ month = 10 ∨ month = 11 ∨ month = 12)
    by lia.
  repeat (destruct Hcases as [-> | Hcases]); try subst month;
    (split; [reflexivity |]); split; intros Hlt;
    solve [reflexivity | lia].
Qed.

(** X11: in range, the monthly calculator calls [print] exactly when
    the live tier raises, and then once, with the message made of the
    fixed prefix, the property, a slash, the tenant, the year, a dash,
    the month on two digits (with a leading zero below 10), a colon and
    the text of the exception. *)
Theorem X11_monthly_diagnostic_format property_id tenant_id month year db_pool :
  bounds_in_range year month →
  ((calculate_monthly_revenue property_id tenant_id month year db_pool).1
     = [] ↔ ∀ e, live_tier db_pool ≠ LiveRaises e)
  ∧ (∀ e, live_tier db_pool = LiveRaises e →
       ∃ mm,
         String.length mm = 2%nat
         ∧ (month < 10 → mm = "0" +:+ pretty month)
         ∧ (10 <= month → mm = pretty month)
         ∧ (calculate_monthly_revenue property_id tenant_id month year
              db_pool).1
           = ["[calculate_monthly_revenue] DB error for " +:+ property_id
              +:+ "/" +:+ tenant_id +:+ " " +:+ pretty year +:+ "-" +:+ mm
              +:+ ": " +:+ str_exn e]).
Proof.
  intros Hr. split.
  - destruct (live_tier db_pool) as [e | | db] eqn:Hlive.
    + rewrite (calculate_monthly_revenue_fallback _ _ _ _ _ _ Hr Hlive).
      simpl. split; [discriminate |]. intros H. exfalso. exact (H e eq_refl).
    + rewrite (calculate_monthly_revenue_no_factory _ _ _ _ _ Hr Hlive).
      simpl. split; [intros _ e; discriminate | reflexivity].
    + rewrite (calculate_monthly_revenue_live _ _ _ _ _ _ Hr Hlive).
      simpl. split; [intros _ e; discriminate | reflexivity].
  - intros e Hlive.
    destruct (fmt_02d_month month (proj1 Hr)) as (Hlen & Hlow & Hhigh).
    exists (fmt_02d month). repeat split; try assumption.
    rewrite (calculate_monthly_revenue_fallback _ _ _ _ _ _ Hr Hlive).
    reflexivity.
Qed.

(** X11, in June 2024 with a failing query. *)
Lemma X11_monthly_diagnostic_witness :
  ∃ mm,
    String.length mm = 2%nat
    ∧ (calculate_monthly_revenue "prop-003" "tenant-a" 6 2024
         (ExecuteFails (KeyError "total"))).1
      = ["[calculate_monthly_revenue] DB error for prop-003/tenant-a 2024-"
         +:+ mm +:+ ": 'total'"].
Proof.
  assert (Hr : bounds_in_range 2024 6).
  { unfold bounds_in_range, MINYEAR, MAXYEAR. lia. }
  destruct (proj2 (X11_monthly_diagnostic_format "prop-003" "tenant-a" 6 2024
                     (ExecuteFails (KeyError "total")) Hr)
              (KeyError "total") eq_refl)
    as (mm & Hlen & Hlow & _ & Hout).
  exists mm. split; [exact Hlen |].
  rewrite Hout. rewrite (Hlow ltac:(lia)). reflexivity.
Defined.

(** ** The order of the rows *)

Lemma dec_add_comm a b : dec_add a b = dec_add b a.
Proof.
  unfold dec_add. cbv zeta. rewrite (Nat.max_comm (scale b) (scale a)).
  f_equal. apply Z.add_comm.
Qed.

Lemma pow10_split (k m n : nat) :
  (k <= m)%nat → (m <= n)%nat →
  10 ^ Z.of_nat (m - k) * 10 ^ Z.of_nat (n - m) = 10 ^ Z.of_nat (n - k).
Proof.
  intros Hkm Hmn. rewrite <- Z.pow_add_r by lia. f_equal. lia.
Qed.

Lemma dec_add_assoc a b c :
  dec_add a (dec_add b c) = dec_add (dec_add a b) c.
Proof.
  unfold dec_add. cbv zeta. simpl coef. simpl scale.
  rewrite Nat.max_assoc. f_equal.
  set (n := Nat.max (Nat.max (scale a) (scale b)) (scale c)).
  rewrite !Z.mul_add_distr_r, <- !Z.mul_assoc.
  rewrite (pow10_split (scale b) (Nat.max (scale b) (scale c)) n) by lia.
  rewrite (pow10_split (scale c) (Nat.max (scale b) (scale c)) n) by lia.
  rewrite (pow10_split (scale a) (Nat.max (scale a) (scale b)) n) by lia.
  rewrite (pow10_split (scale b) (Nat.max (scale a) (scale b)) n) by lia.
  ring.
Qed.

Lemma sql_sum_Permutation xs ys :
  Permutation xs ys → sql_sum xs = sql_sum ys.
Proof.
  induction 1 as [| x xs ys _ IH | x y xs | xs ys zs _ IH1 _ IH2].
  - reflexivity.
  - simpl. rewrite IH. reflexivity.
  - simpl. destruct (sql_sum xs) as [| n | s]; f_equal.
    + apply dec_add_comm.
    + apply dec_add_comm.
    + rewrite !dec_add_assoc, (dec_add_comm y x). reflexivity.
  - congruence.
Qed.

Lemma filter_Permutation {A} (f : A → bool) l l' :
  Permutation l l' → Permutation (List.filter f l) (List.filter f l').
Proof.
  induction 1 as [| x l l' _ IH | x y l | l l' l'' _ IH1 _ IH2].
  - constructor.
  - simpl. destruct (f x); [constructor |]; exact IH.
  - simpl. destruct (f x), (f y); try reflexivity. constructor.
  - etransitivity; eassumption.
Qed.

(** X12: the results do not depend on the order in which the table
    holds its rows: on two tables that are permutations of each other,
    the monthly calculator returns the same Decimal, digit for digit,
    and the aggregator the same total and count. *)
Theorem X12_row_order_irrelevant property_id tenant_id month year db db' :
  Permutation db db' →
  calculate_monthly_revenue property_id tenant_id month year (Ready db)
  = calculate_monthly_revenue property_id tenant_id month year (Ready db')
  ∧ calculate_total_revenue property_id tenant_id (Ready db)
    = calculate_total_revenue property_id tenant_id (Ready db').
Proof.
  intros Hperm. split.
  - assert (Htry : ∀ start_date end_date,
              monthly_try property_id tenant_id start_date end_date (Ready db)
              = monthly_try property_id tenant_id start_date end_date
                  (Ready db')).
    { intros. rewrite !monthly_try_live_tier.
      cbn [live_tier Ready initialize session_factory get_session].
      unfold sum_decimals, monthly_rows.
      rewrite (sql_sum_Permutation _ _
                 (Permutation_map Reservation.total_amount
                    (filter_Permutation _ _ _ Hperm))).
      reflexivity. }
    unfold calculate_monthly_revenue, bind.
    destruct (month_bounds year month) as [out [[start_date end_date] | e]];
      [| reflexivity].
    rewrite Htry. reflexivity.
  - unfold calculate_total_revenue. rewrite !total_try_live_tier.
    cbn [live_tier Ready initialize session_factory get_session].
    pose proof (filter_Permutation (total_where property_id tenant_id)
                  _ _ Hperm) as Hrows.
    fold (total_rows property_id tenant_id db) in Hrows.
    fold (total_rows property_id tenant_id db') in Hrows.
    unfold sum_decimals.
    rewrite (sql_sum_Permutation _ _
               (Permutation_map Reservation.total_amount Hrows)).
    rewrite (Permutation_length Hrows).
    destruct (total_rows property_id tenant_id db) as [| r rows].
    + apply Permutation_nil in Hrows. rewrite Hrows. reflexivity.
    + destruct (total_rows property_id tenant_id db') as [| r' rows'].
      * symmetry in Hrows. apply Permutation_nil in Hrows.
        discriminate Hrows.
      * reflexivity.
Qed.

(** X12, for a table of three rows and its reversal. *)
Lemma X12_row_order_witness :
  calculate_total_revenue "prop-001" "tenant-a"
    (Ready [Reservation.mk "r1" "prop-001" "tenant-a"
              (mk_Decimal 1000000 3) (mk_datetime 2024 6 1 0);
            Reservation.mk "r2" "prop-001" "tenant-a"
              (mk_Decimal 125050 2) (mk_datetime 2024 6 2 0);
            Reservation.mk "r3" "prop-001" "tenant-b"
              (mk_Decimal 1 0) (mk_datetime 2024 6 3 0)])
  = calculate_total_revenue "prop-001" "tenant-a"
      (Ready [Reservation.mk "r3" "prop-001" "tenant-b"
                (mk_Decimal 1 0) (mk_datetime 2024 6 3 0);
              Reservation.mk "r2" "prop-001" "tenant-a"
                (mk_Decimal 125050 2) (mk_datetime 2024 6 2 0);
              Reservation.mk "r1" "prop-001" "tenant-a"
                (mk_Decimal 1000000 3) (mk_datetime 2024 6 1 0)]).
Proof.
  refine (proj2 (X12_row_order_irrelevant "prop-001" "tenant-a" 6 2024
                   _ _ _)).
  apply (Permutation_rev
           [Reservation.mk "r1" "prop-001" "tenant-a"
              (mk_Decimal 1000000 3) (mk_datetime 2024 6 1 0);
            Reservation.mk "r2" "prop-001" "tenant-a"
              (mk_Decimal 125050 2) (mk_datetime 2024 6 2 0);
            Reservation.mk "r3" "prop-001" "tenant-b"
              (mk_Decimal 1 0) (mk_datetime 2024 6 3 0)]).
Defined.

(** ** A month against all time *)

Lemma dec_to_Q_nonneg d : dec_nonneg d → (0 <= dec_to_Q d)%Q.
Proof. unfold dec_nonneg, dec_to_Q, Qle. simpl. lia. Qed.

Lemma monthly_where_total_where property_id tenant_id start_date end_date r :
  monthly_where property_id tenant_id start_date end_date r = true →
  total_where property_id tenant_id r = true.
Proof.
  unfold monthly_where, total_where. rewrite !andb_true_iff. tauto.
Qed.

Lemma total_where_spec property_id tenant_id r :
  total_where property_id tenant_id r = true ↔
  Reservation.property_id r = property_id
  ∧ Reservation.tenant_id r = tenant_id.
Proof.
  unfold total_where. rewrite andb_true_iff, !bool_decide_eq_true. tauto.
Qed.

Lemma sum_Q_monthly_le_total property_id tenant_id start_date end_date db :
  (∀ r, In r db → Reservation.property_id r = property_id →
        Reservation.tenant_id r = tenant_id →
        dec_nonneg (Reservation.total_amount r)) →
  (sum_Q (map Reservation.total_amount
            (monthly_rows property_id tenant_id start_date end_date db))
   <= sum_Q (map Reservation.total_amount
               (total_rows property_id tenant_id db)))%Q.
Proof.
  unfold monthly_rows, total_rows.
  induction db as [| r db IH]; intros Hnn.
  - apply Qle_refl.
  - assert (IH' := IH (λ r' Hin, Hnn r' (or_intror Hin))).
    simpl List.filter.
    destruct (monthly_where property_id tenant_id start_date end_date r)
      eqn:Em.
    + rewrite (monthly_where_total_where _ _ _ _ _ Em). simpl.
      apply Qplus_le_compat; [apply Qle_refl | exact IH'].
    + destruct (total_where property_id tenant_id r) eqn:Et; [| exact IH'].
      simpl. apply total_where_spec in Et. destruct Et as (Hp & Ht).
      rewrite <- (Qplus_0_l (sum_Q (map Reservation.total_amount
                    (List.filter (monthly_where property_id tenant_id
                                    start_date end_date) db)))).
      apply Qplus_le_compat; [| exact IH'].
      apply dec_to_Q_nonneg, (Hnn r (or_introl eq_refl) Hp Ht).
Qed.

(** X13: on one table whose amounts for the property and the tenant are
    non-negative, the revenue of any month is at most the all-time
    revenue: the monthly calculator returns a Decimal and the aggregator
    the string of a Decimal, and the first denotes a number not larger
    than the second. *)
Theorem X13_monthly_at_most_total property_id tenant_id month year db_pool db :
  bounds_in_range year month →
  live_tier db_pool = LiveAnswers db →
  (∀ r, In r db → Reservation.property_id r = property_id →
        Reservation.tenant_id r = tenant_id →
        dec_nonneg (Reservation.total_amount r)) →
  ∃ d D n,
    calculate_monthly_revenue property_id tenant_id month year db_pool
      = ([], Ok (VDecimal d))
    ∧ calculate_total_revenue property_id tenant_id db_pool
      = ([], Ok (revenue_result property_id tenant_id
                   (VStr (str_Decimal D)) (VInt n)))
    ∧ (dec_to_Q d <= dec_to_Q D)%Q.
Proof.
  intros Hr Hlive Hnn.
  rewrite (calculate_monthly_revenue_live _ _ _ _ _ _ Hr Hlive).
  unfold calculate_total_revenue. rewrite total_try_live_tier, Hlive.
  pose proof (sum_Q_monthly_le_total property_id tenant_id
                (first_day year month) (first_day_of_next year month)
                db Hnn) as Hle.
  destruct (total_rows property_id tenant_id db) as [| r rows] eqn:E.
  - exists (sum_decimals (map Reservation.total_amount
              (monthly_rows property_id tenant_id (first_day year month)
                 (first_day_of_next year month) db))),
      (mk_Decimal 0 2), 0.
    split; [reflexivity |]. split; [reflexivity |].
    rewrite sum_decimals_to_Q.
    eapply Qle_trans; [exact Hle |]. unfold Qle. simpl. lia.
  - do 3 eexists.
    split; [reflexivity |]. split; [reflexivity |].
    rewrite !sum_decimals_to_Q. exact Hle.
Qed.

(** X13, in June 2024 with one reservation in June and one in July. *)
Lemma X13_monthly_at_most_total_witness :
  ∃ d D n,
    calculate_monthly_revenue "prop-001" "tenant-a" 6 2024
      (Ready [Reservation.mk "r1" "prop-001" "tenant-a"
                (mk_Decimal 1000000 3) (mk_datetime 2024 6 1 0);
              Reservation.mk "r2" "prop-001" "tenant-a"
                (mk_Decimal 125050 2) (mk_datetime 2024 7 2 0)])
      = ([], Ok (VDecimal d))
    ∧ calculate_total_revenue "prop-001" "tenant-a"
        (Ready [Reservation.mk "r1" "prop-001" "tenant-a"
                  (mk_Decimal 1000000 3) (mk_datetime 2024 6 1 0);
                Reservation.mk "r2" "prop-001" "tenant-a"
                  (mk_Decimal 125050 2) (mk_datetime 2024 7 2 0)])
      = ([], Ok (revenue_result "prop-001" "tenant-a"
                   (VStr (str_Decimal D)) (VInt n)))
    ∧ (dec_to_Q d <= dec_to_Q D)%Q.
Proof.
  refine (X13_monthly_at_most_total "prop-001" "tenant-a" 6 2024
            (Ready _) _ _ eq_refl _).
  - unfold bounds_in_range, MINYEAR, MAXYEAR. lia.
  - intros r Hin _ _. unfold dec_nonneg.
    destruct Hin as [<- | [<- | []]]; simpl; lia.
Defined.

(** ** A pair without reservations *)

Lemma filter_none {A} (f : A → bool) l :
  (∀ x, In x l → f x = false) → List.filter f l = [].
Proof.
  induction l as [| x l IH]; intros Hf; [reflexivity |].
  simpl. rewrite (Hf x (or_introl eq_refl)).
  apply IH. intros y Hy. apply Hf. right. exact Hy.
Qed.

(** X14: when the live tier answers from a table, empty or not, that
    holds no reservation of the property for the tenant, nothing is
    printed, the aggregator returns total "0.00" with count 0 and the
    monthly calculator, in range, returns [Decimal('0')]. *)
Theorem X14_live_pair_without_reservations property_id tenant_id db_pool db :
  live_tier db_pool = LiveAnswers db →
  (∀ r, In r db →
        Reservation.property_id r ≠ property_id
        ∨ Reservation.tenant_id r ≠ tenant_id) →
  calculate_total_revenue property_id tenant_id db_pool
    = ([], Ok (revenue_result property_id tenant_id (VStr "0.00") (VInt 0)))
  ∧ (∀ month year, bounds_in_range year month →
       calculate_monthly_revenue property_id tenant_id month year db_pool
       = ([], Ok (VDecimal (mk_Decimal 0 0)))).
Proof.
  intros Hlive Hother. split.
  - unfold calculate_total_revenue. rewrite total_try_live_tier, Hlive.
    unfold total_rows. rewrite filter_none; [reflexivity |].
    intros r Hin. apply total_where_other, Hother, Hin.
  - intros month year Hr.
    rewrite (calculate_monthly_revenue_live _ _ _ _ _ _ Hr Hlive).
    unfold monthly_rows. rewrite filter_none; [reflexivity |].
    intros r Hin. apply monthly_where_other, Hother, Hin.
Qed.

(** X14, for "tenant-b" on a table that holds a reservation of
    "tenant-a" for the same property. *)
Lemma X14_live_pair_without_reservations_witness :
  calculate_total_revenue "prop-001" "tenant-b"
    (Ready [Reservation.mk "r1" "prop-001" "tenant-a"
              (mk_Decimal 1000000 3) (mk_datetime 2024 6 1 0)])
    = ([], Ok (revenue_result "prop-001" "tenant-b" (VStr "0.00") (VInt 0)))
  ∧ calculate_monthly_revenue "prop-001" "tenant-b" 6 2024
      (Ready [Reservation.mk "r1" "prop-001" "tenant-a"
                (mk_Decimal 1000000 3) (mk_datetime 2024 6 1 0)])
    = ([], Ok (VDecimal (mk_Decimal 0 0))).
Proof.
  destruct (X14_live_pair_without_reservations "prop-001" "tenant-b"
              (Ready [Reservation.mk "r1" "prop-001" "tenant-a"
                        (mk_Decimal 1000000 3) (mk_datetime 2024 6 1 0)])
              _ eq_refl) as (Htotal & Hmonthly).
  - intros r [<- | []]. right. discriminate.
  - split; [exact Htotal |]. apply Hmonthly.
    unfold bounds_in_range, MINYEAR, MAXYEAR. lia.
Defined.
